(** * A shallow embedding of the patient record service (src/main.py)

    The service keeps patient records in one JSON file, derives a body-mass
    index and a verdict for each record, and serves create / read / update /
    sort requests.  The embedding follows main.py function by function:

    - Python exceptions are the [Raise] branch of [result];
    - handlers that touch pateints.json run in the state-and-exception monad
      [M] over a [World] holding the file's content and the trace of
      [load_data] / [save_data] calls;
    - a Python [dict] is an insertion-ordered association list;
    - a number in a body or in the file is the rational it denotes ([Q]).
      The arithmetic of line 22 is given twice: [bmi_double] computes as
      Python does, on IEEE binary64 numbers (the Standard Library's
      [spec_float] with 53 bits and exponent bound 1024), with the rounding
      of every operation, the underflow and the overflow; [bmi] computes on
      exact rationals and serves the statements that hold of whatever number
      the property returns;
    - pydantic's field declarations are read as: presence, a type coercion
      and the declared constraint ([gt=0], [Literal[...]]).  Of the lax
      coercions, int-to-float and integral-float-to-int are modelled, numeric
      strings and booleans are not. *)

From Stdlib Require Import ZArith QArith Qround Qabs Qpower Lqa Lia Bool.
From Stdlib Require Import List String Ascii.
From Stdlib Require Import Sorting.Sorted Sorting.Permutation.
From Stdlib Require Import Morphisms Setoid.
From Stdlib Require Import Floats.SpecFloat.
Import ListNotations.

Local Open Scope string_scope.
Local Open Scope list_scope.
Local Open Scope Q_scope.

(** ** Exceptions and the two monads *)

Inductive exn : Type :=
| ZeroDivisionError
| OverflowError
| KeyError (key : string)
| TypeError
| ValidationError            (* pydantic_core.ValidationError *)
| RequestValidationError     (* raised by FastAPI while parsing a body *)
| HTTPException (status_code : Z).

Inductive result (A : Type) : Type :=
| Ok (a : A)
| Raise (e : exn).
Arguments Ok {A} a.
Arguments Raise {A} e.

Definition rbind {A B} (r : result A) (k : A -> result B) : result B :=
  match r with
  | Ok a => k a
  | Raise e => Raise e
  end.

Notation "x <- e ;; k" := (rbind e (fun x => k))
  (at level 61, e at next level, right associativity).

Definition is_Ok {A} (r : result A) : bool :=
  match r with Ok _ => true | Raise _ => false end.

(** ** Python numbers *)

Definition Qlt_bool (a b : Q) : bool := negb (Qle_bool b a).

(** [a / b] on exact numbers: the ZeroDivisionError of Python's [/], without
    the rounding of doubles, for which see [float_truediv]. *)
Definition py_truediv (a b : Q) : result Q :=
  if Qeq_bool b 0 then Raise ZeroDivisionError else Ok (a / b).

(** Rounding to the nearest integer, ties to the even one. *)
Definition round_half_even (x : Q) : Z :=
  let f := Qfloor x in
  match Qcompare (x - inject_Z f) (1 # 2) with
  | Lt => f
  | Gt => (f + 1)%Z
  | Eq => if Z.even f then f else (f + 1)%Z
  end.

(** [round(x, ndigits)] on exact numbers, for [ndigits >= 0]; the value is
    kept in lowest terms, so that equal numbers are equal terms. *)
Definition py_round (x : Q) (ndigits : nat) : Q :=
  let scale := inject_Z (10 ^ Z.of_nat ndigits) in
  Qred (inject_Z (round_half_even (x * scale)) / scale).

(** ** Python floats: IEEE binary64, as line 22 computes *)

Definition double : Type := spec_float.

Definition double_div : double -> double -> double := SFdiv 53 1024.
Definition double_mul : double -> double -> double := SFmul 53 1024.

(** The double nearest to a rational (ties to even), as Python reads a
    number: the quotient of numerator and denominator, rounded once. *)
Definition double_of_Q (q : Q) : double :=
  match Qnum q with
  | Z0 => S754_zero false
  | Zpos n => double_div (S754_finite false n 0) (S754_finite false (Qden q) 0)
  | Zneg n => double_div (S754_finite true n 0) (S754_finite false (Qden q) 0)
  end.

(** The rational a finite double is. *)
Definition Q_of_double (x : double) : Q :=
  match x with
  | S754_finite s m e => (if s then -1 else 1) * inject_Z (Zpos m) * 2 ^ e
  | _ => 0
  end.

Definition double_zero : double := S754_zero false.

(** [a / b] on floats: a zero divisor raises, whatever [a] is; an overflow
    gives an infinity. *)
Definition float_truediv (a b : double) : result double :=
  if SFeqb b double_zero then Raise ZeroDivisionError
  else Ok (double_div a b).

(** [x ** 2] on floats, taken as the correctly rounded square: a finite [x]
    whose square overflows raises OverflowError, a square that underflows
    is 0.0. *)
Definition float_pow2 (x : double) : result double :=
  match x, double_mul x x with
  | S754_finite _ _ _, S754_infinity _ => Raise OverflowError
  | _, r => Ok r
  end.

(** [round(x, 2)] on floats: the decimal nearest to the exact value of [x]
    with two places (ties to the even one), read back as a double; zeros,
    infinities and NaN are returned as they are. *)
Definition float_round2 (x : double) : double :=
  match x with
  | S754_finite s _ _ =>
      let k := round_half_even (Q_of_double x * 100) in
      if (k =? 0)%Z then S754_zero s else double_of_Q (inject_Z k / 100)
  | _ => x
  end.

(** Line 22 on doubles:
    [round(self.weight / ((self.height / 100) ** 2), 2)]. *)
Definition bmi_double (height_cm weight_kg : double) : result double :=
  h <- float_truediv height_cm (double_of_Q 100) ;;
  sq <- float_pow2 h ;;
  q <- float_truediv weight_kg sq ;;
  Ok (float_round2 q).

(** Lines 28-35 on a double. *)
Definition verdict_double (b : double) : string :=
  if SFltb b (double_of_Q 18.5) then "Underweight"
  else if SFleb (double_of_Q 18.5) b && SFltb b (double_of_Q 24.9)
  then "Normal weight"
  else if SFleb (double_of_Q 25) b && SFltb b (double_of_Q 29.9)
  then "Overweight"
  else "Obesity".

(** A double that is not below zero (NaN included). *)
Definition not_negative (x : double) : bool :=
  match x with
  | S754_finite s _ _ => negb s
  | S754_infinity s => negb s
  | _ => true
  end.

(** ** JSON values and dicts *)

Inductive JValue : Type :=
| JInt (z : Z)
| JFloat (q : Q)
| JStr (s : string)
| JNull.

Definition dict (V : Type) : Type := list (string * V).

Fixpoint dict_get {V} (k : string) (d : dict V) : option V :=
  match d with
  | [] => None
  | (k', v) :: d' => if String.eqb k k' then Some v else dict_get k d'
  end.

Definition dict_contains {V} (k : string) (d : dict V) : bool :=
  match dict_get k d with Some _ => true | None => false end.

(** [d[k] = v]: an existing key keeps its position, a new one goes last. *)
Fixpoint dict_set {V} (k : string) (v : V) (d : dict V) : dict V :=
  match d with
  | [] => [(k, v)]
  | (k', v') :: d' =>
      if String.eqb k k' then (k', v) :: d' else (k', v') :: dict_set k v d'
  end.

Definition dict_keys {V} (d : dict V) : list string := map fst d.
Definition dict_values {V} (d : dict V) : list V := map snd d.

(** [d[k]], raising KeyError. *)
Definition getitem {V} (d : dict V) (k : string) : result V :=
  match dict_get k d with
  | Some v => Ok v
  | None => Raise (KeyError k)
  end.

(** [del d[k]]: the binding of [k] goes, the others keep their order (the
    keys of a Python dict are unique). *)
Definition dict_del {V} (k : string) (d : dict V) : dict V :=
  filter (fun kv => negb (String.eqb k (fst kv))) d.

Definition Obj : Type := dict JValue.
Definition Store : Type := dict Obj.

(** ** The models: [Pateint] (lines 9-35) and [PateintUpdate] (lines 37-43) *)

Inductive Gender : Type := male | female | others.

Definition Gender_of_string (s : string) : option Gender :=
  if String.eqb s "male" then Some male
  else if String.eqb s "female" then Some female
  else if String.eqb s "others" then Some others
  else None.

Definition string_of_Gender (g : Gender) : string :=
  match g with
  | male => "male"
  | female => "female"
  | others => "others"
  end.

Record Pateint : Type := mkPateint {
  id : string;
  name : string;
  city : string;
  age : Z;
  gender : Gender;
  height : Q;
  weight : Q
}.

(** [Pateint.bmi] on exact numbers:
    [round(self.weight / ((self.height / 100) ** 2), 2)].  It stands for
    the property wherever a statement holds of whatever number it returns;
    the number Python computes, on doubles, is [bmi_double]'s. *)
Definition bmi (self : Pateint) : result Q :=
  h <- py_truediv (height self) 100 ;;
  q <- py_truediv (weight self) (h ^ 2) ;;
  Ok (py_round q 2).

(** [Pateint.verdict]: the if / elif chain; every [self.bmi] is a fresh
    evaluation of the property. *)
Definition verdict (self : Pateint) : result string :=
  b1 <- bmi self ;;
  if Qlt_bool b1 18.5 then Ok "Underweight"
  else
    b2 <- bmi self ;;
    if Qle_bool 18.5 b2 && Qlt_bool b2 24.9 then Ok "Normal weight"
    else
      b3 <- bmi self ;;
      if Qle_bool 25 b3 && Qlt_bool b3 29.9 then Ok "Overweight"
      else Ok "Obesity".

(** *** pydantic validation of a field set *)

Definition as_str (v : JValue) : option string :=
  match v with JStr s => Some s | _ => None end.

Definition as_int (v : JValue) : option Z :=
  match v with
  | JInt z => Some z
  | JFloat q => if Qeq_bool (inject_Z (Qfloor q)) q then Some (Qfloor q) else None
  | _ => None
  end.

Definition as_float (v : JValue) : option Q :=
  match v with
  | JInt z => Some (inject_Z z)
  | JFloat q => Some q
  | _ => None
  end.

Definition as_gender (v : JValue) : option Gender :=
  match v with JStr s => Gender_of_string s | _ => None end.

Definition unconstrained {A} (_ : A) : bool := true.
Definition gt0_int (z : Z) : bool := (0 <? z)%Z.
Definition gt0_float (q : Q) : bool := Qlt_bool 0 q.

(** A required field, [Field(...)]: present, of the declared type and
    within the declared constraint. *)
Definition required {A} (o : Obj) (k : string)
    (coerce : JValue -> option A) (constraint : A -> bool) : result A :=
  match dict_get k o with
  | None => Raise ValidationError
  | Some v =>
      match coerce v with
      | None => Raise ValidationError
      | Some a => if constraint a then Ok a else Raise ValidationError
      end
  end.

(** The constructor [Pateint] on the keyword arguments [o]; keys that are
    no field of the model are ignored. *)
Definition Pateint_validate (o : Obj) : result Pateint :=
  i <- required o "id" as_str unconstrained ;;
  n <- required o "name" as_str unconstrained ;;
  c <- required o "city" as_str unconstrained ;;
  a <- required o "age" as_int unconstrained ;;
  g <- required o "gender" as_gender unconstrained ;;
  h <- required o "height" as_float gt0_float ;;
  w <- required o "weight" as_float gt0_float ;;
  Ok (mkPateint i n c a g h w).

(** [pateint.model_dump(exclude=['id'])]: the declared fields in order, then
    the two computed fields. *)
Definition Pateint_model_dump_exclude_id (p : Pateint) : result Obj :=
  b <- bmi p ;;
  v <- verdict p ;;
  Ok [ ("name", JStr (name p)); ("city", JStr (city p)); ("age", JInt (age p));
       ("gender", JStr (string_of_Gender (gender p)));
       ("height", JFloat (height p)); ("weight", JFloat (weight p));
       ("bmi", JFloat b); ("verdict", JStr v) ].

(** A field of [PateintUpdate]: never set by the request, or set, possibly
    to [None]. *)
Inductive Opt (A : Type) : Type :=
| Unset
| Given (v : option A).
Arguments Unset {A}.
Arguments Given {A} v.

Record PateintUpdate : Type := mkPateintUpdate {
  upd_name : Opt string;
  upd_city : Opt string;
  upd_age : Opt Z;
  upd_gender : Opt Gender;
  upd_height : Opt Q;
  upd_weight : Opt Q
}.

(** An [Optional] field with [default=None]: the constraint bears on a value
    that is not [None]. *)
Definition optional {A} (o : Obj) (k : string)
    (coerce : JValue -> option A) (constraint : A -> bool) : result (Opt A) :=
  match dict_get k o with
  | None => Ok Unset
  | Some JNull => Ok (Given None)
  | Some v =>
      match coerce v with
      | None => Raise ValidationError
      | Some a => if constraint a then Ok (Given (Some a)) else Raise ValidationError
      end
  end.

Definition PateintUpdate_validate (o : Obj) : result PateintUpdate :=
  n <- optional o "name" as_str unconstrained ;;
  c <- optional o "city" as_str unconstrained ;;
  a <- optional o "age" as_int gt0_int ;;
  g <- optional o "gender" as_gender unconstrained ;;
  h <- optional o "height" as_float gt0_float ;;
  w <- optional o "weight" as_float gt0_float ;;
  Ok (mkPateintUpdate n c a g h w).

Definition dump_opt {A} (k : string) (inj : A -> JValue) (f : Opt A) : Obj :=
  match f with
  | Unset => []
  | Given None => [(k, JNull)]
  | Given (Some a) => [(k, inj a)]
  end.

(** [pateint_update.model_dump(exclude_unset=True)] *)
Definition PateintUpdate_model_dump_exclude_unset (u : PateintUpdate) : Obj :=
  dump_opt "name" JStr (upd_name u) ++
  dump_opt "city" JStr (upd_city u) ++
  dump_opt "age" JInt (upd_age u) ++
  dump_opt "gender" (fun g => JStr (string_of_Gender g)) (upd_gender u) ++
  dump_opt "height" JFloat (upd_height u) ++
  dump_opt "weight" JFloat (upd_weight u).

(** ** The backing file and the handler monad *)

Inductive Event : Type :=
| EvLoad
| EvSave (data : Store).

Record World : Type := mkWorld {
  file : Store;          (* the content of pateints.json *)
  trace : list Event     (* the calls of load_data / save_data so far *)
}.

Definition M (A : Type) : Type := World -> result A * World.

Definition ret {A} (a : A) : M A := fun w => (Ok a, w).
Definition raise {A} (e : exn) : M A := fun w => (Raise e, w).
Definition lift {A} (r : result A) : M A := fun w => (r, w).

Definition mbind {A B} (m : M A) (k : A -> M B) : M B :=
  fun w =>
    match m w with
    | (Ok a, w') => k a w'
    | (Raise e, w') => (Raise e, w')
    end.

Notation "x <~ m ;; k" := (mbind m (fun x => k))
  (at level 61, m at next level, right associativity).

Definition load_data : M Store :=
  fun w => (Ok (file w), mkWorld (file w) (trace w ++ [EvLoad])).

Definition save_data (data : Store) : M unit :=
  fun w => (Ok tt, mkWorld data (trace w ++ [EvSave data])).

(** What a handler returns. *)
Inductive Returned : Type :=
| RetStore (data : Store)
| RetObj (o : Obj)
| RetList (l : list Obj)
| JSONResponse (status_code : Z) (message : string).

(** The status FastAPI answers with. *)
Definition http_status (r : result Returned) : Z :=
  match r with
  | Ok (JSONResponse s _) => s
  | Ok _ => 200
  | Raise (HTTPException s) => s
  | Raise RequestValidationError => 422
  | Raise _ => 500
  end%Z.

(** ** Python's [sorted] *)

(** [a < b] on the values a record holds. *)
Definition py_lt (a b : JValue) : result bool :=
  match a, b with
  | JStr s, JStr t => Ok (String.ltb s t)
  | _, _ =>
      match as_float a, as_float b with
      | Some x, Some y => Ok (Qlt_bool x y)
      | _, _ => Raise TypeError
      end
  end.

Fixpoint map_result {A B} (f : A -> result B) (l : list A) : result (list B) :=
  match l with
  | [] => Ok []
  | x :: l' =>
      y <- f x ;;
      ys <- map_result f l' ;;
      Ok (y :: ys)
  end.

(** A stable sort that only uses [<], as [list.sort] does: an element goes
    after the elements strictly below it and before all others. *)
Fixpoint insert_keyed {A} (x : JValue * A) (l : list (JValue * A))
    : result (list (JValue * A)) :=
  match l with
  | [] => Ok [x]
  | y :: l' =>
      b <- py_lt (fst y) (fst x) ;;
      if b then (r <- insert_keyed x l' ;; Ok (y :: r))
      else Ok (x :: y :: l')
  end.

Fixpoint sort_keyed {A} (l : list (JValue * A)) : result (list (JValue * A)) :=
  match l with
  | [] => Ok []
  | x :: l' =>
      s <- sort_keyed l' ;;
      insert_keyed x s
  end.

(** [sorted(l, key=key, reverse=reverse)]: the keys are computed first; with
    [reverse] the list is reversed, sorted and reversed again, which keeps
    equal keys in their original order. *)
Definition py_sorted {A} (key : A -> result JValue) (reverse : bool)
    (l : list A) : result (list A) :=
  keyed <- map_result (fun x => k <- key x ;; Ok (k, x)) l ;;
  s <- sort_keyed (if reverse then rev keyed else keyed) ;;
  Ok (map snd (if reverse then rev s else s)).

(** ** The handlers *)

Definition str_in (s : string) (l : list string) : bool :=
  existsb (String.eqb s) l.

(** GET /view *)
Definition view : M Returned :=
  data <~ load_data ;;
  ret (RetStore data).

(** GET /pateints/{pateint_id} *)
Definition view_pateint (pateint_id : string) : M Returned :=
  data <~ load_data ;;
  match dict_get pateint_id data with
  | Some o => ret (RetObj o)
  | None => raise (HTTPException 404)
  end.

Definition valid_fields : list string := ["height"; "weight"; "bmi"].

(** GET /sort *)
Definition sort_patients (sort_by order : string) : M Returned :=
  if negb (str_in sort_by valid_fields) then raise (HTTPException 400)
  else if negb (str_in order ["asc"; "desc"]) then raise (HTTPException 400)
  else
    data <~ load_data ;;
    let sort_order := if String.eqb order "desc" then false else true in
    match py_sorted (fun x => getitem x sort_by) (negb sort_order)
            (dict_values data) with
    | Ok sorted_data => ret (RetList sorted_data)
    | Raise _ => raise (HTTPException 500)
    end.

(** POST /create, once FastAPI has built the [Pateint]. *)
Definition create_pateint (pateint : Pateint) : M Returned :=
  data <~ load_data ;;
  if dict_contains (id pateint) data then raise (HTTPException 400)
  else
    dumped <~ lift (Pateint_model_dump_exclude_id pateint) ;;
    _ <~ save_data (dict_set (id pateint) dumped data) ;;
    ret (JSONResponse 201 "Pateint created successfully").

(** The loop of lines 131-133. *)
Definition merge_items (existing_pateint_info updated_pateint_info : Obj) : Obj :=
  fold_left
    (fun acc kv =>
       match snd kv with
       | JNull => acc
       | value => dict_set (fst kv) value acc
       end)
    updated_pateint_info existing_pateint_info.

(** Lines 129-137: the merge, the id put back, and the validation of the
    whole record. *)
Definition MergePartial (existing_pateint_info : Obj)
    (pateint_update : PateintUpdate) (pateint_id : string) : result Pateint :=
  let updated_pateint_info :=
    PateintUpdate_model_dump_exclude_unset pateint_update in
  let merged := merge_items existing_pateint_info updated_pateint_info in
  Pateint_validate (dict_set "id" (JStr pateint_id) merged).

(** PUT /edit/{pateint_id}, once FastAPI has built the [PateintUpdate].  The
    loop mutates the dict held by the loaded [data]; that copy lives for
    this request only, the file changes in [save_data] alone. *)
Definition update_pateint (pateint_id : string) (pateint_update : PateintUpdate)
    : M Returned :=
  data <~ load_data ;;
  match dict_get pateint_id data with
  | None => raise (HTTPException 404)
  | Some existing_pateint_info =>
      pateint_pydantic_obj <~
        lift (MergePartial existing_pateint_info pateint_update pateint_id) ;;
      dumped <~ lift (Pateint_model_dump_exclude_id pateint_pydantic_obj) ;;
      _ <~ save_data (dict_set pateint_id dumped data) ;;
      ret (JSONResponse 200 "Pateint updated successfully")
  end.

(** DELETE /delete/{pateint_id} *)
Definition delete_pateint (pateint_id : string) : M Returned :=
  data <~ load_data ;;
  if negb (dict_contains pateint_id data) then raise (HTTPException 404)
  else
    _ <~ save_data (dict_del pateint_id data) ;;
    ret (JSONResponse 200 "Pateint deleted successfully").

(** *** The routes: FastAPI validates the body, then calls the handler *)

Definition POST_create (body : Obj) : M Returned :=
  match Pateint_validate body with
  | Ok pateint => create_pateint pateint
  | Raise _ => raise RequestValidationError
  end.

Definition PUT_edit (pateint_id : string) (body : Obj) : M Returned :=
  match PateintUpdate_validate body with
  | Ok pateint_update => update_pateint pateint_id pateint_update
  | Raise _ => raise RequestValidationError
  end.

(** ** Sample data *)

Definition P001_body : Obj :=
  [ ("id", JStr "P001"); ("name", JStr "Harsh"); ("city", JStr "Delhi");
    ("age", JInt 30); ("gender", JStr "male");
    ("height", JFloat 175.5); ("weight", JInt 70) ].

Definition P001 : Pateint :=
  mkPateint "P001" "Harsh" "Delhi" 30 male 175.5 70.

Definition empty_world : World := mkWorld [] [].

(** A record one metre tall has its weight as bmi: used for the boundary
    values of the verdict. *)
Definition with_bmi (b : Q) : Pateint := mkPateint "B" "n" "c" 1 male 100 b.

(** ** Reading a field set, for the statements *)

(** The value a field set holds under [k], seen at the declared type. *)
Definition field {A} (o : Obj) (k : string) (coerce : JValue -> option A)
    : option A :=
  match dict_get k o with
  | Some v => coerce v
  | None => None
  end.






(** A record with its age replaced. *)
Definition with_age (p : Pateint) (a : Z) : Pateint :=
  mkPateint (id p) (name p) (city p) a (gender p) (height p) (weight p).

(** A record with its city replaced. *)
Definition with_city (p : Pateint) (c : string) : Pateint :=
  mkPateint (id p) (name p) c (age p) (gender p) (height p) (weight p).

(** The keys of a value written by [create_pateint] or [update_pateint]. *)
Definition dumped_keys : list string :=
  ["name"; "city"; "age"; "gender"; "height"; "weight"; "bmi"; "verdict"].

(** A file holding a record that the model refuses: its gender is "other". *)
Definition P009_stored : Obj :=
  [ ("name", JStr "Asha"); ("city", JStr "Pune"); ("age", JInt 30);
    ("gender", JStr "other"); ("height", JInt 160); ("weight", JInt 55) ].

Definition world_P009 : World := mkWorld [("P009", P009_stored)] [].

(** The world after [load_data], and after [save_data data]. *)
Definition loaded (w : World) : World := mkWorld (file w) (trace w ++ [EvLoad]).

Definition saved (data : Store) (w : World) : World :=
  mkWorld data (trace w ++ [EvSave data]).

(** A field of a patch that is absent (never set) or null. *)
Definition absent {A} (f : Opt A) : Prop := f = Unset \/ f = Given None.

(** A patch with no field present. *)
Definition no_field_present (u : PateintUpdate) : Prop :=
  absent (upd_name u) /\ absent (upd_city u) /\ absent (upd_age u) /\
  absent (upd_gender u) /\ absent (upd_height u) /\ absent (upd_weight u).

(** A patch whose only present field is the city, with value [c]. *)
Definition only_city (u : PateintUpdate) (c : string) : Prop :=
  absent (upd_name u) /\ upd_city u = Given (Some c) /\ absent (upd_age u) /\
  absent (upd_gender u) /\ absent (upd_height u) /\ absent (upd_weight u).

(** The value the service stores for P001, and a file holding it. *)
Definition P001_stored : Obj :=
  [ ("name", JStr "Harsh"); ("city", JStr "Delhi"); ("age", JInt 30);
    ("gender", JStr "male"); ("height", JFloat 175.5); ("weight", JFloat 70);
    ("bmi", JFloat 22.73); ("verdict", JStr "Normal weight") ].

Definition world_P001 : World := mkWorld [("P001", P001_stored)] [].

(** *** Reading sort keys, for the statements *)

(** The number a value stands for (0 when it is none). *)
Definition numv (v : JValue) : Q :=
  match as_float v with Some q => q | None => 0 end.

(** The value a record holds under [k], as [x[k]] reads it. *)
Definition stored_key (k : string) (x : Obj) : JValue :=
  match dict_get k x with Some v => v | None => JNull end.

Definition num_key (k : string) (x : Obj) : Q := numv (stored_key k x).

(** The record holds a number under [k]. *)
Definition holds_number (k : string) (x : Obj) : Prop :=
  exists q : Q, field x k as_float = Some q.

(** The sort of [sort_keyed] on keys that are numbers: what it computes
    when no comparison raises. *)
Fixpoint insert_by {A} (key : A -> Q) (x : A) (l : list A) : list A :=
  match l with
  | [] => [x]
  | y :: l' =>
      if Qlt_bool (key y) (key x) then y :: insert_by key x l'
      else x :: y :: l'
  end.

Fixpoint sort_by_key {A} (key : A -> Q) (l : list A) : list A :=
  match l with
  | [] => []
  | x :: l' => insert_by key x (sort_by_key key l')
  end.

(** A file whose records hold the six declared fields and no bmi. *)
Definition six_fields (n : string) (h w : Z) : Obj :=
  [ ("name", JStr n); ("city", JStr "Pune"); ("age", JInt 30);
    ("gender", JStr "female"); ("height", JInt h); ("weight", JInt w) ].

Definition world_six : World :=
  mkWorld [ ("P1", six_fields "A" 150 50); ("P2", six_fields "B" 180 80);
            ("P3", six_fields "C" 160 60) ] [].

(** A file whose stored bmi values are not the ones of the stored heights
    and weights. *)
Definition world_stale : World :=
  mkWorld [ ("P1", six_fields "A" 100 50 ++ [("bmi", JFloat 10)]);
            ("P2", six_fields "B" 100 20 ++ [("bmi", JFloat 99)]) ] [].

(** A file with two records of the same height, and the names of a list of
    records. *)
Definition world_ties : World :=
  mkWorld [ ("P1", six_fields "A" 160 50); ("P2", six_fields "B" 150 80);
            ("P3", six_fields "C" 160 60) ] [].

Definition names_of (r : result Returned) : list (option string) :=
  match r with
  | Ok (RetList l) => map (fun x => field x "name" as_str) l
  | _ => []
  end.

(** A record paired with its key, as [sorted] holds it. *)
Definition keyed (k : string) (x : Obj) : JValue * Obj := (stored_key k x, x).

(** The key function of [sort_patients]: [lambda x: x[sort_by]], paired. *)
Definition key_of (k : string) (x : Obj) : result (JValue * Obj) :=
  kk <- getitem x k ;; Ok (kk, x).

(** *** Patches and stored values, for the statements *)

(** A field of a record after a patch field is applied to it. *)
Definition overwrite {A} (f : Opt A) (old : A) : A :=
  match f with
  | Given (Some a) => a
  | _ => old
  end.

(** A record after a patch: each present field replaces the record's. *)
Definition patched (u : PateintUpdate) (p : Pateint) : Pateint :=
  mkPateint (id p)
    (overwrite (upd_name u) (name p)) (overwrite (upd_city u) (city p))
    (overwrite (upd_age u) (age p)) (overwrite (upd_gender u) (gender p))
    (overwrite (upd_height u) (height p)) (overwrite (upd_weight u) (weight p)).

(** The bounds [PateintUpdate] declares on its present values. *)
Definition patch_in_bounds (u : PateintUpdate) : Prop :=
  (forall a : Z, upd_age u = Given (Some a) -> (0 < a)%Z) /\
  (forall h : Q, upd_height u = Given (Some h) -> 0 < h) /\
  (forall w : Q, upd_weight u = Given (Some w) -> 0 < w).

(** What one patch field does to a stored value in the loop of lines
    131-133. *)
Definition merge_field {A} (k : string) (inj : A -> JValue) (f : Opt A)
    (e : Obj) : Obj :=
  match f with
  | Given (Some a) => dict_set k (inj a) e
  | _ => e
  end.

(** The stored value [o] is the one the service writes for a record it
    accepts under the id [pateint_id]. *)
Definition written_for (pateint_id : string) (o : Obj) : Prop :=
  exists p : Pateint,
    Pateint_validate (dict_set "id" (JStr pateint_id) o) = Ok p /\
    Pateint_model_dump_exclude_id p = Ok o.

(** Every value of the file is one the service writes. *)
Definition service_written (data : Store) : Prop :=
  Forall (fun kv => written_for (fst kv) (snd kv)) data.

Definition verdicts : list string :=
  ["Underweight"; "Normal weight"; "Overweight"; "Obesity"].

(** ** Facts about the numbers *)

Lemma Qlt_bool_iff (a b : Q) : Qlt_bool a b = true <-> a < b.
Proof.
  unfold Qlt_bool. rewrite negb_true_iff.
  split; intro H.
  - apply Qnot_le_lt. intro Hle. apply Qle_bool_iff in Hle. congruence.
  - destruct (Qle_bool b a) eqn:E; trivial.
    apply Qle_bool_iff in E. lra.
Qed.

Lemma Qlt_bool_false_iff (a b : Q) : Qlt_bool a b = false <-> b <= a.
Proof.
  unfold Qlt_bool. rewrite negb_false_iff. apply Qle_bool_iff.
Qed.

Lemma Qle_bool_false_iff (a b : Q) : Qle_bool a b = false <-> b < a.
Proof.
  split; intro H.
  - apply Qnot_le_lt. intro Hle. apply Qle_bool_iff in Hle. congruence.
  - destruct (Qle_bool a b) eqn:E; trivial.
    apply Qle_bool_iff in E. lra.
Qed.

Lemma Qeq_bool_false_iff (a b : Q) : Qeq_bool a b = false <-> ~ a == b.
Proof.
  split.
  - apply Qeq_bool_neq.
  - intro H. destruct (Qeq_bool a b) eqn:E; trivial.
    apply Qeq_bool_eq in E. contradiction.
Qed.


(** *** Validation *)

Lemma required_Ok_iff {A} (o : Obj) (k : string) (coerce : JValue -> option A)
    (constraint : A -> bool) (a : A) :
  required o k coerce constraint = Ok a <->
  field o k coerce = Some a /\ constraint a = true.
Proof.
  unfold required, field.
  destruct (dict_get k o) as [v|]; [|split; [discriminate | intros [H _]; discriminate H]].
  destruct (coerce v) as [a'|]; [|split; [discriminate | intros [H _]; discriminate H]].
  destruct (constraint a') eqn:E; split.
  - intros [= <-]. now split.
  - intros [[= <-] _]. reflexivity.
  - discriminate.
  - intros [[= <-] H]. congruence.
Qed.

Lemma required_cases {A} (o : Obj) (k : string) (coerce : JValue -> option A)
    (constraint : A -> bool) :
  (exists a, required o k coerce constraint = Ok a) \/
  required o k coerce constraint = Raise ValidationError.
Proof.
  unfold required.
  destruct (dict_get k o) as [v|]; [|now right].
  destruct (coerce v) as [a|]; [|now right].
  destruct (constraint a); [left; now exists a | now right].
Qed.

Lemma rbind_Ok_iff {A B} (r : result A) (k : A -> result B) (b : B) :
  rbind r k = Ok b <-> exists a, r = Ok a /\ k a = Ok b.
Proof.
  destruct r as [a|e]; cbn [rbind]; split.
  - intro H. now exists a.
  - intros [a' [[= <-] H]]. exact H.
  - discriminate.
  - intros [a' [H _]]. discriminate H.
Qed.

Lemma Pateint_validate_Ok_iff (o : Obj) (p : Pateint) :
  Pateint_validate o = Ok p <->
  field o "id" as_str = Some (id p) /\
  field o "name" as_str = Some (name p) /\
  field o "city" as_str = Some (city p) /\
  field o "age" as_int = Some (age p) /\
  field o "gender" as_gender = Some (gender p) /\
  field o "height" as_float = Some (height p) /\
  field o "weight" as_float = Some (weight p) /\
  gt0_float (height p) = true /\ gt0_float (weight p) = true.
Proof.
  unfold Pateint_validate. split.
  - intro H.
    repeat (apply rbind_Ok_iff in H; destruct H as [? [?Hr H]];
            apply required_Ok_iff in Hr; destruct Hr as [?Hf ?Hc]).
    injection H as <-. cbn. tauto.
  - intros (Hi & Hn & Hc & Ha & Hg & Hh & Hw & Gh & Gw).
    rewrite (proj2 (required_Ok_iff o "id" as_str unconstrained _) (conj Hi eq_refl)).
    rewrite (proj2 (required_Ok_iff o "name" as_str unconstrained _) (conj Hn eq_refl)).
    rewrite (proj2 (required_Ok_iff o "city" as_str unconstrained _) (conj Hc eq_refl)).
    rewrite (proj2 (required_Ok_iff o "age" as_int unconstrained _) (conj Ha eq_refl)).
    rewrite (proj2 (required_Ok_iff o "gender" as_gender unconstrained _) (conj Hg eq_refl)).
    rewrite (proj2 (required_Ok_iff o "height" as_float gt0_float _) (conj Hh Gh)).
    rewrite (proj2 (required_Ok_iff o "weight" as_float gt0_float _) (conj Hw Gw)).
    cbn [rbind]. now destruct p.
Qed.

Lemma Pateint_validate_cases (o : Obj) :
  (exists p, Pateint_validate o = Ok p) \/ Pateint_validate o = Raise ValidationError.
Proof.
  unfold Pateint_validate.
  repeat match goal with
         | |- context [rbind (required ?o ?k ?c ?P) _] =>
             destruct (required_cases o k c P) as [[? ->] | ->];
             cbn [rbind]; [|now right]
         end.
  left. eexists. reflexivity.
Qed.

(** *** [bmi] and [verdict] *)

Lemma verdict_of_bmi (self : Pateint) (b : Q) :
  bmi self = Ok b ->
  verdict self =
    Ok (if Qlt_bool b 18.5 then "Underweight"
        else if Qle_bool 18.5 b && Qlt_bool b 24.9 then "Normal weight"
        else if Qle_bool 25 b && Qlt_bool b 29.9 then "Overweight"
        else "Obesity").
Proof.
  intro H. unfold verdict. rewrite H. cbn [rbind].
  destruct (Qlt_bool b 18.5); [reflexivity|].
  destruct (Qle_bool 18.5 b && Qlt_bool b 24.9); [reflexivity|].
  destruct (Qle_bool 25 b && Qlt_bool b 29.9); reflexivity.
Qed.

Example verdict_boundaries :
  map (fun b => verdict (with_bmi b)) [18.49; 18.5; 24.89; 24.9; 25.0; 29.89; 29.9]
  = map Ok ["Underweight"; "Normal weight"; "Normal weight"; "Obesity";
            "Overweight"; "Overweight"; "Obesity"].
Proof. vm_compute. reflexivity. Qed.

(** C1: for every record whose bmi is [b], [verdict] follows the boundary
    table: [b < 18.5] is "Underweight", [18.5 <= b < 24.9] is
    "Normal weight", [25 <= b < 29.9] is "Overweight", and every other value
    (the gap [24.9 <= b < 25], and [29.9 <= b]) is "Obesity". *)
Theorem verdict_boundary_table (self : Pateint) (b : Q) :
  bmi self = Ok b ->
  (b < 18.5 -> verdict self = Ok "Underweight") /\
  (18.5 <= b < 24.9 -> verdict self = Ok "Normal weight") /\
  (25 <= b < 29.9 -> verdict self = Ok "Overweight") /\
  (24.9 <= b < 25 \/ 29.9 <= b -> verdict self = Ok "Obesity").
Proof.
  intro Hb. rewrite (verdict_of_bmi self b Hb).
  repeat split.
  - intro H. now rewrite (proj2 (Qlt_bool_iff _ _) H).
  - intros [H1 H2].
    rewrite (proj2 (Qlt_bool_false_iff _ _) H1).
    rewrite (proj2 (Qle_bool_iff _ _) H1), (proj2 (Qlt_bool_iff _ _) H2).
    reflexivity.
  - intros [H1 H2].
    assert (L1 : 18.5 <= b) by lra. assert (L2 : 24.9 <= b) by lra.
    rewrite (proj2 (Qlt_bool_false_iff _ _) L1).
    rewrite (proj2 (Qlt_bool_false_iff _ _) L2), andb_false_r.
    rewrite (proj2 (Qle_bool_iff _ _) H1), (proj2 (Qlt_bool_iff _ _) H2).
    reflexivity.
  - intros [[H1 H2] | H].
    + assert (L1 : 18.5 <= b) by lra.
      rewrite (proj2 (Qlt_bool_false_iff _ _) L1).
      rewrite (proj2 (Qlt_bool_false_iff _ _) H1), andb_false_r.
      rewrite (proj2 (Qle_bool_false_iff _ _) H2).
      reflexivity.
    + assert (L1 : 18.5 <= b) by lra. assert (L2 : 24.9 <= b) by lra.
      rewrite (proj2 (Qlt_bool_false_iff _ _) L1).
      rewrite (proj2 (Qlt_bool_false_iff _ _) L2), andb_false_r.
      rewrite (proj2 (Qlt_bool_false_iff _ _) H), andb_false_r.
      reflexivity.
Qed.

Lemma verdict_boundary_table_witness :
  bmi (with_bmi 24.9) = Ok 24.9 /\ verdict (with_bmi 24.9) = Ok "Obesity".
Proof.
  split; [reflexivity|].
  apply (verdict_boundary_table (with_bmi 24.9) 24.9); [reflexivity|].
  left. split; [apply Qle_refl | reflexivity].
Defined.

(** *** Line 22 on doubles *)

Lemma double_of_Q_100 : double_of_Q 100 = S754_finite false 7036874417766400 (-46).
Proof. vm_compute. reflexivity. Qed.

Lemma float_truediv_100 (x : double) :
  float_truediv x (double_of_Q 100) = Ok (double_div x (double_of_Q 100)).
Proof. rewrite double_of_Q_100. reflexivity. Qed.






(** What the service computes on doubles, at the values where exact
    arithmetic differs: 49.6 / 1.6 ** 2 is 19.374999999999996 on doubles,
    so the bmi is 19.37 (19.375 exactly would round to 19.38); weight 99.58
    at height 200 gives 24.89; a height of 1e200 overflows the square; and a
    quotient that overflows is the infinity. *)
Example bmi_double_values :
  bmi_double (double_of_Q 160) (double_of_Q 49.6) = Ok (double_of_Q 19.37) /\
  bmi (mkPateint "V" "n" "c" 1 male 160 49.6) = Ok (Qred 19.38) /\
  bmi_double (double_of_Q 200) (double_of_Q 99.58) = Ok (double_of_Q 24.89) /\
  bmi_double (double_of_Q (10 ^ 200)) (double_of_Q 70) = Raise OverflowError /\
  bmi_double (double_of_Q (1 / 10 ^ 100)) (double_of_Q (10 ^ 308))
  = Ok (S754_infinity false).
Proof. repeat split; vm_compute; reflexivity. Qed.




Lemma SFeqb_zero_inv (x : double) :
  SFeqb x double_zero = true -> exists s : bool, x = S754_zero s.
Proof.
  destruct x as [s|s| |s m e]; cbn; try discriminate.
  - intros _. now exists s.
  - destruct s; discriminate.
  - destruct s; discriminate.
Qed.

Lemma bmi_double_zero_height (s : bool) (w : double) :
  bmi_double (S754_zero s) w = Raise ZeroDivisionError.
Proof. destruct s; reflexivity. Qed.

Lemma binary_round_aux_opp (s : bool) (m e : Z) (l : location) :
  binary_round_aux 53 1024 (negb s) m e l
  = SFopp (binary_round_aux 53 1024 s m e l).
Proof.
  unfold binary_round_aux.
  destruct (shr_fexp 53 1024 m e l) as [mrs' e'].
  destruct (shr_fexp 53 1024 _ e' loc_Exact) as [mrs'' e''].
  destruct (shr_m mrs''); [reflexivity | | reflexivity].
  destruct (Z.leb e'' (1024 - 53)); reflexivity.
Qed.

Lemma double_div_opp_finite (x : double) (s : bool) (m : positive) (e : Z) :
  double_div (SFopp x) (S754_finite s m e)
  = SFopp (double_div x (S754_finite s m e)).
Proof.
  destruct x as [sx|sx| |sx mx ex]; unfold double_div; cbn [SFopp SFdiv].
  - now destruct sx, s.
  - now destruct sx, s.
  - reflexivity.
  - destruct (SFdiv_core_binary 53 1024 (Z.pos mx) ex (Z.pos m) e) as [[mz ez] lz].
    rewrite <- binary_round_aux_opp. now destruct sx, s.
Qed.

Lemma float_pow2_opp (x : double) : float_pow2 (SFopp x) = float_pow2 x.
Proof.
  destruct x as [s|s| |s m e]; try (destruct s; reflexivity); try reflexivity.
Qed.

Lemma bmi_double_opp (h w : double) : bmi_double (SFopp h) w = bmi_double h w.
Proof.
  unfold bmi_double. rewrite !float_truediv_100. cbn [rbind].
  rewrite double_of_Q_100, double_div_opp_finite.
  now rewrite float_pow2_opp.
Qed.

(** The claim of C7 fails below zero: a negative height gives a bmi, on
    doubles as on exact numbers. *)
Lemma bmi_negative_height_returns :
  bmi_double (double_of_Q (-100)) (double_of_Q 50) = Ok (double_of_Q 50) /\
  bmi (mkPateint "N" "n" "c" 1 male (-100) 50) = Ok 50.
Proof. split; vm_compute; reflexivity. Qed.

(** C7, amended: the bmi has no guard of its own and knows no DomainError.
    With height 0 the division raises ZeroDivisionError (no infinity and no
    NaN).  A height below 0 is not refused: the square drops the sign, so
    the bmi is the one of the opposite height, whatever that is; height -100
    with weight 50 returns 50.0.  A height above 0 is the work of the
    validation ([gt=0]): every validated record has one. *)
Theorem bmi_unguarded (h w : double) :
  (SFeqb h double_zero = true -> bmi_double h w = Raise ZeroDivisionError) /\
  bmi_double (SFopp h) w = bmi_double h w /\
  bmi_double (double_of_Q (-100)) (double_of_Q 50) = Ok (double_of_Q 50) /\
  (forall (o : Obj) (p : Pateint), Pateint_validate o = Ok p -> 0 < height p).
Proof.
  split; [|split; [apply bmi_double_opp | split]].
  - intro H. apply SFeqb_zero_inv in H. destruct H as [s ->].
    apply bmi_double_zero_height.
  - vm_compute. reflexivity.
  - intros o p H. apply Pateint_validate_Ok_iff in H.
    apply Qlt_bool_iff, H.
Qed.

Lemma bmi_unguarded_witness :
  bmi_double (S754_zero true) (double_of_Q 50) = Raise ZeroDivisionError /\
  bmi_double (SFopp (double_of_Q 160)) (double_of_Q 49.6)
  = bmi_double (double_of_Q 160) (double_of_Q 49.6) /\
  0 < height P001.
Proof.
  split; [|split].
  - apply (proj1 (bmi_unguarded (S754_zero true) (double_of_Q 50))). reflexivity.
  - apply (proj1 (proj2 (bmi_unguarded (double_of_Q 160) (double_of_Q 49.6)))).
  - apply (proj2 (proj2 (proj2 (bmi_unguarded double_zero double_zero))) P001_body).
    reflexivity.
Defined.

(** *** The field sets [Pateint] accepts *)







(** *** Dicts *)

Lemma dict_get_set_eq {V} (k : string) (v : V) (d : dict V) :
  dict_get k (dict_set k v d) = Some v.
Proof.
  induction d as [|[k' v'] d IH]; cbn.
  - now rewrite String.eqb_refl.
  - destruct (String.eqb k k') eqn:E; cbn; rewrite E; [reflexivity | exact IH].
Qed.

Lemma dict_get_set_neq {V} (k k' : string) (v : V) (d : dict V) :
  k <> k' -> dict_get k' (dict_set k v d) = dict_get k' d.
Proof.
  intro N. induction d as [|[k0 v0] d IH]; cbn.
  - destruct (String.eqb_spec k' k); [congruence | reflexivity].
  - destruct (String.eqb_spec k k0) as [->|N0]; cbn.
    + destruct (String.eqb_spec k' k0); [congruence | reflexivity].
    + now rewrite IH.
Qed.

Lemma dict_set_same {V} (k : string) (v : V) (d : dict V) :
  dict_get k d = Some v -> dict_set k v d = d.
Proof.
  induction d as [|[k' v'] d IH]; cbn; [discriminate|].
  destruct (String.eqb k k'); intro H.
  - now injection H as ->.
  - now rewrite IH.
Qed.

Lemma field_set_eq {A} (o : Obj) (k : string) (v : JValue)
    (coerce : JValue -> option A) :
  field (dict_set k v o) k coerce = coerce v.
Proof. unfold field. now rewrite dict_get_set_eq. Qed.

Lemma field_set_neq {A} (o : Obj) (k k' : string) (v : JValue)
    (coerce : JValue -> option A) :
  k <> k' -> field (dict_set k v o) k' coerce = field o k' coerce.
Proof. intro N. unfold field. now rewrite dict_get_set_neq. Qed.

(** *** The update model *)

Lemma optional_cases {A} (o : Obj) (k : string) (coerce : JValue -> option A)
    (constraint : A -> bool) :
  (exists f, optional o k coerce constraint = Ok f) \/
  optional o k coerce constraint = Raise ValidationError.
Proof.
  unfold optional.
  destruct (dict_get k o) as [v|]; [|left; now eexists].
  destruct (coerce v) as [a|]; [destruct (constraint a)|];
    destruct v; (now right) || (left; now eexists).
Qed.

Lemma inject_Z_nonpos (z : Z) : inject_Z z <= 0 -> (z <= 0)%Z.
Proof. unfold Qle. cbn. lia. Qed.

Lemma optional_int_nonpositive (o : Obj) (k : string) (v : JValue) (q : Q) :
  dict_get k o = Some v -> as_float v = Some q -> q <= 0 ->
  optional o k as_int gt0_int = Raise ValidationError.
Proof.
  intros Hk Hv Hq. unfold optional. rewrite Hk.
  destruct v as [z|q'| |]; cbn in Hv; try discriminate Hv; injection Hv as <-.
  - cbn. unfold gt0_int.
    apply inject_Z_nonpos in Hq.
    destruct (Z.ltb_spec 0 z); [lia | reflexivity].
  - cbn. destruct (Qeq_bool (inject_Z (Qfloor q')) q'); [|reflexivity].
    unfold gt0_int.
    assert (Hf : (Qfloor q' <= 0)%Z).
    { apply inject_Z_nonpos. pose proof (Qfloor_le q'). lra. }
    destruct (Z.ltb_spec 0 (Qfloor q')); [lia | reflexivity].
Qed.

Lemma optional_float_nonpositive (o : Obj) (k : string) (v : JValue) (q : Q) :
  dict_get k o = Some v -> as_float v = Some q -> q <= 0 ->
  optional o k as_float gt0_float = Raise ValidationError.
Proof.
  intros Hk Hv Hq. unfold optional. rewrite Hk, Hv.
  unfold gt0_float. rewrite (proj2 (Qlt_bool_false_iff 0 q) Hq).
  destruct v; cbn in Hv; (discriminate Hv || reflexivity).
Qed.

Ltac step_optional :=
  match goal with
  | |- context [rbind (optional ?o ?k ?c ?P) _] =>
      destruct (optional_cases o k c P) as [[? ->] | ->];
      cbn [rbind]; [|reflexivity]
  end.

Lemma PateintUpdate_validate_nonpositive (body : Obj) (k : string)
    (v : JValue) (q : Q) :
  In k ["age"; "height"; "weight"] ->
  dict_get k body = Some v -> as_float v = Some q -> q <= 0 ->
  PateintUpdate_validate body = Raise ValidationError.
Proof.
  intros Hin Hk Hv Hq. unfold PateintUpdate_validate.
  destruct Hin as [<- | [<- | [<- | []]]].
  - rewrite (optional_int_nonpositive body "age" v q Hk Hv Hq).
    do 2 step_optional. reflexivity.
  - rewrite (optional_float_nonpositive body "height" v q Hk Hv Hq).
    do 4 step_optional. reflexivity.
  - rewrite (optional_float_nonpositive body "weight" v q Hk Hv Hq).
    do 5 step_optional. reflexivity.
Qed.

Lemma PateintUpdate_validate_cases (body : Obj) :
  (exists u, PateintUpdate_validate body = Ok u) \/
  PateintUpdate_validate body = Raise ValidationError.
Proof.
  unfold PateintUpdate_validate.
  repeat match goal with
         | |- context [rbind (optional ?o ?k ?c ?P) _] =>
             destruct (optional_cases o k c P) as [[? ->] | ->];
             cbn [rbind]; [|now right]
         end.
  left. eexists. reflexivity.
Qed.

Lemma Pateint_validate_set_age (o : Obj) (p : Pateint) (a : Z) :
  Pateint_validate o = Ok p ->
  Pateint_validate (dict_set "age" (JInt a) o) = Ok (with_age p a).
Proof.
  rewrite !Pateint_validate_Ok_iff.
  intros (Hi & Hn & Hc & Ha & Hg & Hh & Hw & Gh & Gw).
  rewrite field_set_eq.
  rewrite !field_set_neq by discriminate.
  cbn. tauto.
Qed.

(** C10: a body of PUT /edit/{id} that holds under age, height or weight a
    number that is not above zero is refused while FastAPI builds the
    [PateintUpdate]: the answer is 422 whatever the file and the id are, and
    the world is the one before the request (no load, no save).  The model of
    POST /create has no such bound on age: a valid field set stays valid when
    its age is replaced by any integer. *)
Theorem PUT_edit_rejects_nonpositive (pateint_id k : string) (body : Obj)
    (v : JValue) (q : Q) (w : World) :
  In k ["age"; "height"; "weight"] ->
  dict_get k body = Some v -> as_float v = Some q -> q <= 0 ->
  PUT_edit pateint_id body w = (Raise RequestValidationError, w) /\
  http_status (fst (PUT_edit pateint_id body w)) = 422%Z /\
  (forall (o : Obj) (p : Pateint) (a : Z),
      Pateint_validate o = Ok p ->
      Pateint_validate (dict_set "age" (JInt a) o) = Ok (with_age p a)).
Proof.
  intros Hin Hk Hv Hq.
  assert (E : PUT_edit pateint_id body w = (Raise RequestValidationError, w)).
  { unfold PUT_edit.
    now rewrite (PateintUpdate_validate_nonpositive body k v q Hin Hk Hv Hq). }
  split; [exact E|]. split; [now rewrite E|].
  apply Pateint_validate_set_age.
Qed.

Lemma PUT_edit_rejects_nonpositive_witness :
  PUT_edit "P404" [("city", JStr "Pune"); ("age", JInt 0)] empty_world
  = (Raise RequestValidationError, empty_world).
Proof.
  apply (PUT_edit_rejects_nonpositive "P404" "age"
           [("city", JStr "Pune"); ("age", JInt 0)] (JInt 0) 0 empty_world).
  - cbn. tauto.
  - reflexivity.
  - reflexivity.
  - apply Qle_refl.
Defined.

(** *** The handlers, step by step *)

Lemma update_pateint_eq (pateint_id : string) (u : PateintUpdate) (w : World) :
  update_pateint pateint_id u w =
  match dict_get pateint_id (file w) with
  | None => (Raise (HTTPException 404), loaded w)
  | Some existing =>
      match MergePartial existing u pateint_id with
      | Raise e => (Raise e, loaded w)
      | Ok p =>
          match Pateint_model_dump_exclude_id p with
          | Raise e => (Raise e, loaded w)
          | Ok dumped =>
              (Ok (JSONResponse 200 "Pateint updated successfully"),
               saved (dict_set pateint_id dumped (file w)) (loaded w))
          end
      end
  end.
Proof.
  unfold update_pateint, mbind, load_data, lift, raise, ret, save_data, loaded, saved.
  cbn [file trace].
  destruct (dict_get pateint_id (file w)) as [existing|]; [|reflexivity].
  destruct (MergePartial existing u pateint_id) as [p|e]; [|reflexivity].
  destruct (Pateint_model_dump_exclude_id p) as [d|e]; reflexivity.
Qed.

Lemma create_pateint_eq (p : Pateint) (w : World) :
  create_pateint p w =
  if dict_contains (id p) (file w) then (Raise (HTTPException 400), loaded w)
  else
    match Pateint_model_dump_exclude_id p with
    | Raise e => (Raise e, loaded w)
    | Ok dumped =>
        (Ok (JSONResponse 201 "Pateint created successfully"),
         saved (dict_set (id p) dumped (file w)) (loaded w))
    end.
Proof.
  unfold create_pateint, mbind, load_data, lift, raise, ret, save_data, loaded, saved.
  cbn [file trace].
  destruct (dict_contains (id p) (file w)); [reflexivity|].
  destruct (Pateint_model_dump_exclude_id p) as [d|e]; reflexivity.
Qed.

Lemma MergePartial_cases (existing : Obj) (u : PateintUpdate) (i : string) :
  (exists p, MergePartial existing u i = Ok p) \/
  MergePartial existing u i = Raise ValidationError.
Proof. unfold MergePartial. apply Pateint_validate_cases. Qed.

Lemma model_dump_Ok_inv (p : Pateint) (o : Obj) :
  Pateint_model_dump_exclude_id p = Ok o ->
  exists (b : Q) (v : string),
    bmi p = Ok b /\ verdict p = Ok v /\
    o = [ ("name", JStr (name p)); ("city", JStr (city p)); ("age", JInt (age p));
          ("gender", JStr (string_of_Gender (gender p)));
          ("height", JFloat (height p)); ("weight", JFloat (weight p));
          ("bmi", JFloat b); ("verdict", JStr v) ].
Proof.
  unfold Pateint_model_dump_exclude_id. intro H.
  destruct (bmi p) as [b|]; cbn [rbind] in H; [|discriminate H].
  destruct (verdict p) as [v|]; cbn [rbind] in H; [|discriminate H].
  injection H as <-. now exists b, v.
Qed.

(** The claim of C5 fails on the status: the stored record is refused by the
    model, the ValidationError leaves the handler uncaught, and FastAPI
    answers 500, neither 422 nor 400. *)
Lemma update_invalid_stored_record_is_500 :
  PateintUpdate_validate [("city", JStr "Goa")]
  = Ok (mkPateintUpdate Unset (Given (Some "Goa")) Unset Unset Unset Unset) /\
  PUT_edit "P009" [("city", JStr "Goa")] world_P009
  = (Raise ValidationError, loaded world_P009) /\
  http_status (fst (PUT_edit "P009" [("city", JStr "Goa")] world_P009)) = 500%Z.
Proof. repeat split. Qed.

(** C5, amended: for PUT /edit/{id}, a body the update model refuses is
    answered 422 before the handler runs; an id absent from the file is
    answered 404; a merged record that fails validation raises a
    ValidationError that the handler does not catch, answered 500; and in
    every failure the file is unchanged: at most [load_data] has run. *)
Theorem update_failure_cases (pateint_id : string) (body : Obj) (w : World) :
  (is_Ok (PateintUpdate_validate body) = false ->
   PUT_edit pateint_id body w = (Raise RequestValidationError, w)) /\
  (forall u : PateintUpdate,
      PateintUpdate_validate body = Ok u ->
      dict_get pateint_id (file w) = None ->
      PUT_edit pateint_id body w = (Raise (HTTPException 404), loaded w)) /\
  (forall (u : PateintUpdate) (existing : Obj),
      PateintUpdate_validate body = Ok u ->
      dict_get pateint_id (file w) = Some existing ->
      is_Ok (MergePartial existing u pateint_id) = false ->
      PUT_edit pateint_id body w = (Raise ValidationError, loaded w) /\
      http_status (fst (PUT_edit pateint_id body w)) = 500%Z) /\
  (is_Ok (fst (PUT_edit pateint_id body w)) = false ->
   file (snd (PUT_edit pateint_id body w)) = file w /\
   (snd (PUT_edit pateint_id body w) = w \/
    snd (PUT_edit pateint_id body w) = loaded w)).
Proof.
  unfold PUT_edit.
  destruct (PateintUpdate_validate body) as [u|e] eqn:Ev; cbn [is_Ok].
  - split; [discriminate|].
    rewrite update_pateint_eq.
    split; [|split].
    + intros u' _ Hnone. now rewrite Hnone.
    + intros u' existing [= <-] Hsome Hfail. rewrite Hsome.
      destruct (MergePartial_cases existing u pateint_id) as [[p Hp] | Hr].
      * rewrite Hp in Hfail. discriminate Hfail.
      * rewrite Hr. now split.
    + destruct (dict_get pateint_id (file w)) as [existing|]; [|intros _; split; [reflexivity | now right]].
      destruct (MergePartial existing u pateint_id) as [p|e]; [|intros _; split; [reflexivity | now right]].
      destruct (Pateint_model_dump_exclude_id p) as [d|e]; [discriminate|].
      intros _; split; [reflexivity | now right].
  - split; [reflexivity|].
    split; [discriminate|]. split; [discriminate|].
    intros _. split; [reflexivity | now left].
Qed.

Lemma update_failure_cases_witness :
  PUT_edit "P009" [("city", JStr "Goa")] world_P009
  = (Raise ValidationError, loaded world_P009) /\
  file (snd (PUT_edit "P009" [("city", JStr "Goa")] world_P009)) = file world_P009 /\
  PUT_edit "P404" [("city", JStr "Goa")] world_P009
  = (Raise (HTTPException 404), loaded world_P009).
Proof.
  pose proof (update_failure_cases "P009" [("city", JStr "Goa")] world_P009)
    as (_ & _ & H3 & H4).
  pose proof (update_failure_cases "P404" [("city", JStr "Goa")] world_P009)
    as (_ & H2 & _).
  split; [|split].
  - apply (H3 (mkPateintUpdate Unset (Given (Some "Goa")) Unset Unset Unset Unset)
              P009_stored); reflexivity.
  - apply H4. reflexivity.
  - apply (H2 (mkPateintUpdate Unset (Given (Some "Goa")) Unset Unset Unset Unset));
      reflexivity.
Defined.

(** The claim of C4 fails on the computed fields: the value written by a
    create holds bmi and verdict next to the six declared fields. *)
Lemma create_persists_bmi_and_verdict :
  dict_get "P001" (file (snd (POST_create P001_body empty_world)))
  = Some [ ("name", JStr "Harsh"); ("city", JStr "Delhi"); ("age", JInt 30);
           ("gender", JStr "male"); ("height", JFloat 175.5);
           ("weight", JFloat 70); ("bmi", JFloat 22.73);
           ("verdict", JStr "Normal weight") ] /\
  fst (POST_create P001_body empty_world)
  = Ok (JSONResponse 201 "Pateint created successfully").
Proof. split; reflexivity. Qed.

(** C4, amended: after a successful create or edit, the value in the file
    under that id holds exactly eight fields: name, city, age, gender, height
    and weight, and with them bmi and verdict, computed from that height and
    weight when the value is written.  A read returns the stored value as it
    is: bmi and verdict are not computed again. *)
Theorem persisted_value_fields (w : World) :
  (forall (p : Pateint) (r : Returned) (w' : World),
      create_pateint p w = (Ok r, w') ->
      exists o : Obj,
        dict_get (id p) (file w') = Some o /\
        Pateint_model_dump_exclude_id p = Ok o /\
        dict_keys o = dumped_keys) /\
  (forall (pateint_id : string) (u : PateintUpdate) (r : Returned) (w' : World),
      update_pateint pateint_id u w = (Ok r, w') ->
      exists (o : Obj) (p : Pateint),
        dict_get pateint_id (file w') = Some o /\
        Pateint_model_dump_exclude_id p = Ok o /\
        dict_keys o = dumped_keys) /\
  (forall (p : Pateint) (o : Obj),
      Pateint_model_dump_exclude_id p = Ok o ->
      exists (b : Q) (v : string),
        bmi p = Ok b /\ verdict p = Ok v /\
        dict_get "height" o = Some (JFloat (height p)) /\
        dict_get "weight" o = Some (JFloat (weight p)) /\
        dict_get "bmi" o = Some (JFloat b) /\
        dict_get "verdict" o = Some (JStr v)) /\
  (forall (pateint_id : string) (o : Obj),
      dict_get pateint_id (file w) = Some o ->
      fst (view_pateint pateint_id w) = Ok (RetObj o)) /\
  fst (view w) = Ok (RetStore (file w)).
Proof.
  split; [|split; [|split; [|split]]].
  - intros p r w' H. rewrite create_pateint_eq in H.
    destruct (dict_contains (id p) (file w)); [discriminate H|].
    destruct (Pateint_model_dump_exclude_id p) as [d|e] eqn:Ed; [|discriminate H].
    injection H as _ <-. exists d. cbn [saved file].
    split; [apply dict_get_set_eq|]. split; [reflexivity|].
    apply model_dump_Ok_inv in Ed. destruct Ed as (b & v & _ & _ & ->).
    reflexivity.
  - intros i u r w' H. rewrite update_pateint_eq in H.
    destruct (dict_get i (file w)) as [existing|]; [|discriminate H].
    destruct (MergePartial existing u i) as [p|e]; [|discriminate H].
    destruct (Pateint_model_dump_exclude_id p) as [d|e] eqn:Ed; [|discriminate H].
    injection H as _ <-. exists d, p. cbn [saved file].
    split; [apply dict_get_set_eq|]. split; [exact Ed|].
    apply model_dump_Ok_inv in Ed. destruct Ed as (b & v & _ & _ & ->).
    reflexivity.
  - intros p o H. apply model_dump_Ok_inv in H.
    destruct H as (b & v & Hb & Hv & ->). exists b, v.
    repeat split; assumption || reflexivity.
  - intros i o H. unfold view_pateint, mbind, load_data. cbn [file].
    now rewrite H.
  - reflexivity.
Qed.

Lemma persisted_value_fields_witness :
  exists o : Obj,
    dict_get "P001" (file (snd (create_pateint P001 empty_world))) = Some o /\
    Pateint_model_dump_exclude_id P001 = Ok o /\
    dict_keys o = dumped_keys.
Proof.
  apply (proj1 (persisted_value_fields empty_world) P001
           (JSONResponse 201 "Pateint created successfully")
           (snd (create_pateint P001 empty_world))).
  reflexivity.
Defined.

(** *** The merge *)

Lemma merge_items_app (e a b : Obj) :
  merge_items e (a ++ b) = merge_items (merge_items e a) b.
Proof. unfold merge_items. apply fold_left_app. Qed.

Lemma merge_items_absent {A} (e : Obj) (k : string) (inj : A -> JValue)
    (f : Opt A) :
  absent f -> merge_items e (dump_opt k inj f) = e.
Proof. intros [-> | ->]; reflexivity. Qed.

Lemma merge_items_no_field (e : Obj) (u : PateintUpdate) :
  no_field_present u ->
  merge_items e (PateintUpdate_model_dump_exclude_unset u) = e.
Proof.
  intros (Hn & Hc & Ha & Hg & Hh & Hw).
  unfold PateintUpdate_model_dump_exclude_unset.
  rewrite !merge_items_app.
  now rewrite !merge_items_absent.
Qed.

Lemma merge_items_only_city (e : Obj) (u : PateintUpdate) (c : string) :
  only_city u c ->
  merge_items e (PateintUpdate_model_dump_exclude_unset u)
  = dict_set "city" (JStr c) e.
Proof.
  intros (Hn & Hc & Ha & Hg & Hh & Hw).
  unfold PateintUpdate_model_dump_exclude_unset.
  rewrite !merge_items_app.
  rewrite (merge_items_absent e "name" JStr _ Hn).
  rewrite Hc. cbn [dump_opt].
  now rewrite !merge_items_absent.
Qed.

Lemma optional_set_id {A} (body : Obj) (v : JValue) (k : string)
    (coerce : JValue -> option A) (constraint : A -> bool) :
  k <> "id" ->
  optional (dict_set "id" v body) k coerce constraint
  = optional body k coerce constraint.
Proof.
  intro N. unfold optional. rewrite dict_get_set_neq by congruence. reflexivity.
Qed.

(** What the service stores for a valid record reads back as that record. *)
Lemma dump_validate_roundtrip (p : Pateint) (d : Obj) :
  0 < height p -> 0 < weight p ->
  Pateint_model_dump_exclude_id p = Ok d ->
  Pateint_validate (dict_set "id" (JStr (id p)) d) = Ok p.
Proof.
  intros Hh Hw Hd. apply model_dump_Ok_inv in Hd.
  destruct Hd as (b & v & _ & _ & ->).
  apply Pateint_validate_Ok_iff.
  unfold gt0_float. rewrite !Qlt_bool_iff.
  repeat split; try assumption; try reflexivity.
  cbn. now destruct (gender p).
Qed.

(** C8: for a stored value that reads as the valid record [p], the merge
    with a patch holding no field (each one absent or null) returns [p]
    itself; and when the stored value is the one the service wrote for [p],
    the whole edit writes the file back as it was. *)
Theorem MergePartial_empty_patch (existing : Obj) (u : PateintUpdate)
    (pateint_id : string) (p : Pateint) :
  no_field_present u ->
  Pateint_validate (dict_set "id" (JStr pateint_id) existing) = Ok p ->
  MergePartial existing u pateint_id = Ok p /\
  (forall w : World,
      dict_get pateint_id (file w) = Some existing ->
      Pateint_model_dump_exclude_id p = Ok existing ->
      update_pateint pateint_id u w
      = (Ok (JSONResponse 200 "Pateint updated successfully"),
         saved (file w) (loaded w))).
Proof.
  intros Hu Hp.
  assert (E : MergePartial existing u pateint_id = Ok p).
  { unfold MergePartial. now rewrite merge_items_no_field. }
  split; [exact E|].
  intros w Hget Hdump.
  rewrite update_pateint_eq, Hget, E, Hdump.
  now rewrite (dict_set_same _ _ _ Hget).
Qed.

Lemma MergePartial_empty_patch_witness :
  MergePartial P001_stored
    (mkPateintUpdate Unset (Given None) Unset Unset Unset Unset) "P001"
  = Ok P001 /\
  file (snd (update_pateint "P001"
               (mkPateintUpdate Unset (Given None) Unset Unset Unset Unset)
               world_P001))
  = file world_P001.
Proof.
  destruct (MergePartial_empty_patch P001_stored
              (mkPateintUpdate Unset (Given None) Unset Unset Unset Unset)
              "P001" P001) as [H1 H2].
  - unfold no_field_present, absent. cbn. tauto.
  - reflexivity.
  - split; [exact H1|].
    rewrite (H2 world_P001); reflexivity.
Defined.

(** C9: for a stored value that reads as the valid record [p] and a patch
    whose only present field is the city, the merge returns [p] with the city
    replaced: height, weight, age, gender and name are those of [p].  The id
    is the one of the path; the update model has no id field, so an id in the
    body changes nothing. *)
Theorem MergePartial_only_city (existing : Obj) (u : PateintUpdate)
    (pateint_id c : string) (p : Pateint) :
  only_city u c ->
  Pateint_validate (dict_set "id" (JStr pateint_id) existing) = Ok p ->
  MergePartial existing u pateint_id = Ok (with_city p c) /\
  id (with_city p c) = pateint_id /\
  (height (with_city p c) = height p /\ weight (with_city p c) = weight p /\
   age (with_city p c) = age p /\ gender (with_city p c) = gender p /\
   name (with_city p c) = name p /\ city (with_city p c) = c) /\
  (forall (body : Obj) (v : JValue),
      PateintUpdate_validate (dict_set "id" v body) = PateintUpdate_validate body).
Proof.
  intros Hu Hp.
  apply Pateint_validate_Ok_iff in Hp.
  destruct Hp as (Hi & Hn & Hc & Ha & Hg & Hh & Hw & Gh & Gw).
  rewrite field_set_eq in Hi. cbn in Hi. injection Hi as Hi.
  rewrite field_set_neq in Hn by discriminate.
  rewrite field_set_neq in Hc by discriminate.
  rewrite field_set_neq in Ha by discriminate.
  rewrite field_set_neq in Hg by discriminate.
  rewrite field_set_neq in Hh by discriminate.
  rewrite field_set_neq in Hw by discriminate.
  split; [|split; [symmetry; exact Hi | split; [now cbn|]]].
  - unfold MergePartial. rewrite (merge_items_only_city existing u c Hu).
    apply Pateint_validate_Ok_iff.
    rewrite field_set_eq.
    rewrite !(field_set_neq _ "id") by discriminate.
    rewrite field_set_eq.
    rewrite !(field_set_neq _ "city") by discriminate.
    cbn. rewrite Hi. tauto.
  - intros body v. unfold PateintUpdate_validate.
    now rewrite !optional_set_id by discriminate.
Qed.

Lemma MergePartial_only_city_witness :
  MergePartial P001_stored
    (mkPateintUpdate Unset (Given (Some "Pune")) (Given None) Unset Unset Unset)
    "P001"
  = Ok (with_city P001 "Pune").
Proof.
  apply (MergePartial_only_city P001_stored
           (mkPateintUpdate Unset (Given (Some "Pune")) (Given None) Unset Unset Unset)
           "P001" "Pune" P001).
  - unfold only_city, absent. cbn. tauto.
  - reflexivity.
Defined.

(** *** A stable sort on numbers *)

Section StableSort.
Context {A : Type}.
Variable key : A -> Q.

Lemma insert_by_perm (x : A) (l : list A) :
  Permutation (insert_by key x l) (x :: l).
Proof.
  induction l as [|y l IH]; cbn; [reflexivity|].
  destruct (Qlt_bool (key y) (key x)); [|reflexivity].
  rewrite IH. apply perm_swap.
Qed.

Lemma sort_by_key_perm (l : list A) : Permutation (sort_by_key key l) l.
Proof.
  induction l as [|x l IH]; cbn; [reflexivity|].
  rewrite insert_by_perm. now constructor.
Qed.

Lemma insert_by_sorted (x : A) (l : list A) :
  Sorted (fun a b => key a <= key b) l -> Sorted (fun a b => key a <= key b) (insert_by key x l).
Proof.
  induction l as [|y l IH]; cbn; intro Hs.
  - repeat constructor.
  - destruct (Qlt_bool (key y) (key x)) eqn:E.
    + apply Sorted_inv in Hs. destruct Hs as [Hs Hd].
      constructor; [now apply IH|].
      apply Qlt_bool_iff in E.
      destruct l as [|z l]; cbn.
      * constructor. cbv beta. lra.
      * destruct (Qlt_bool (key z) (key x)).
        -- constructor. now apply HdRel_inv in Hd.
        -- constructor. cbv beta. lra.
    + apply Qlt_bool_false_iff in E.
      constructor; [exact Hs|]. now constructor.
Qed.

Lemma sort_by_key_sorted (l : list A) :
  StronglySorted (fun a b => key a <= key b) (sort_by_key key l).
Proof.
  apply Sorted_StronglySorted.
  - intros a b c Hab Hbc. cbv beta in *. lra.
  - induction l as [|x l IH]; cbn; [constructor|].
    now apply insert_by_sorted.
Qed.

(** Insertion keeps the elements of each key in their order: the new
    element passes only elements strictly below it. *)
Lemma insert_by_stable (q : Q) (x : A) (l : list A) :
  filter (fun y => Qeq_bool (key y) q) (insert_by key x l) = filter (fun y => Qeq_bool (key y) q) (x :: l).
Proof.
  induction l as [|y l IH]; [reflexivity|].
  cbn [insert_by].
  destruct (Qlt_bool (key y) (key x)) eqn:E; [|reflexivity].
  apply Qlt_bool_iff in E.
  cbn [filter] in *. rewrite IH.
  destruct (Qeq_bool (key x) q) eqn:Ex; [|reflexivity].
  apply Qeq_bool_eq in Ex.
  assert (Ey : Qeq_bool (key y) q = false).
  { apply Qeq_bool_false_iff. lra. }
  now rewrite Ey.
Qed.

Lemma sort_by_key_stable (q : Q) (l : list A) :
  filter (fun y => Qeq_bool (key y) q) (sort_by_key key l) = filter (fun y => Qeq_bool (key y) q) l.
Proof.
  induction l as [|x l IH]; [reflexivity|].
  cbn [sort_by_key]. rewrite insert_by_stable.
  cbn [filter]. now rewrite IH.
Qed.

Lemma StronglySorted_snoc (R : A -> A -> Prop) (l : list A) (a : A) :
  StronglySorted R l -> Forall (fun y => R y a) l ->
  StronglySorted R (l ++ [a]).
Proof.
  induction 1 as [|y l Hs IH Hy]; cbn; intro Hf.
  - repeat constructor.
  - apply Forall_cons_iff in Hf. destruct Hf as [Hya Hf].
    constructor; [now apply IH|].
    apply Forall_app. split; [exact Hy | now constructor].
Qed.

Lemma StronglySorted_rev (R : A -> A -> Prop) (l : list A) :
  StronglySorted R l -> StronglySorted (fun a b => R b a) (rev l).
Proof.
  induction 1 as [|y l Hs IH Hy]; cbn; [constructor|].
  apply StronglySorted_snoc; [exact IH|].
  now apply Forall_rev.
Qed.

(** The sort with [reverse]: reversed, sorted, reversed again. *)
Lemma reverse_sort_perm (l : list A) :
  Permutation (rev (sort_by_key key (rev l))) l.
Proof.
  rewrite <- Permutation_rev, sort_by_key_perm. symmetry. apply Permutation_rev.
Qed.

Lemma reverse_sort_sorted (l : list A) :
  StronglySorted (fun a b => key b <= key a) (rev (sort_by_key key (rev l))).
Proof.
  apply (StronglySorted_rev (fun a b => key a <= key b)). apply sort_by_key_sorted.
Qed.

Lemma reverse_sort_stable (q : Q) (l : list A) :
  filter (fun y => Qeq_bool (key y) q) (rev (sort_by_key key (rev l))) = filter (fun y => Qeq_bool (key y) q) l.
Proof.
  rewrite filter_rev, sort_by_key_stable, filter_rev. apply rev_involutive.
Qed.

End StableSort.

(** *** [sorted] on records that hold numbers *)

Lemma str_in_iff (s : string) (l : list string) : str_in s l = true <-> In s l.
Proof.
  unfold str_in. rewrite existsb_exists. split.
  - intros [x [Hin E]]. apply String.eqb_eq in E. now subst.
  - intro Hin. exists s. split; [exact Hin | apply String.eqb_refl].
Qed.

Lemma py_lt_num (a b : JValue) (x y : Q) :
  as_float a = Some x -> as_float b = Some y -> py_lt a b = Ok (Qlt_bool x y).
Proof.
  intros Ha Hb.
  destruct a, b; cbn in Ha, Hb; try discriminate;
    injection Ha as <-; injection Hb as <-; reflexivity.
Qed.

Lemma holds_number_key (k : string) (x : Obj) :
  holds_number k x ->
  as_float (stored_key k x) = Some (num_key k x) /\
  getitem x k = Ok (stored_key k x).
Proof.
  intros [q Hq]. unfold num_key, numv, stored_key, getitem, field in *.
  destruct (dict_get k x) as [v|]; [|discriminate Hq].
  now rewrite Hq.
Qed.

Lemma map_result_keys (k : string) (l : list Obj) :
  Forall (holds_number k) l ->
  map_result (key_of k) l = Ok (map (keyed k) l).
Proof.
  induction 1 as [|x l Hx Hl IH]; [reflexivity|].
  cbn [map_result map]. unfold key_of at 1.
  rewrite (proj2 (holds_number_key k x Hx)). cbn [rbind].
  now rewrite IH.
Qed.

Lemma map_result_KeyError (k : string) (l : list Obj) :
  Exists (fun x => dict_get k x = None) l ->
  map_result (key_of k) l = Raise (KeyError k).
Proof.
  induction l as [|x l IH]; intro H; [inversion H|].
  cbn [map_result]. unfold key_of at 1, getitem.
  destruct (dict_get k x) as [v|] eqn:E; cbn [rbind]; [|reflexivity].
  apply Exists_cons in H. destruct H as [H | H]; [congruence|].
  now rewrite (IH H).
Qed.

Lemma insert_keyed_num (k : string) (x : Obj) (l : list Obj) :
  holds_number k x -> Forall (holds_number k) l ->
  insert_keyed (keyed k x) (map (keyed k) l)
  = Ok (map (keyed k) (insert_by (num_key k) x l)).
Proof.
  intros Hx Hl. induction Hl as [|y l Hy Hl IH]; [reflexivity|].
  cbn [map insert_keyed insert_by]. cbn [keyed fst].
  rewrite (py_lt_num _ _ _ _ (proj1 (holds_number_key k y Hy))
             (proj1 (holds_number_key k x Hx))).
  cbn [rbind].
  destruct (Qlt_bool (num_key k y) (num_key k x)); [|reflexivity].
  fold (keyed k x). rewrite IH. reflexivity.
Qed.

Lemma sort_keyed_num (k : string) (l : list Obj) :
  Forall (holds_number k) l ->
  sort_keyed (map (keyed k) l) = Ok (map (keyed k) (sort_by_key (num_key k) l)).
Proof.
  induction 1 as [|x l Hx Hl IH]; [reflexivity|].
  cbn [map sort_keyed sort_by_key]. rewrite IH. cbn [rbind].
  apply insert_keyed_num; [exact Hx|].
  apply (Permutation_Forall (Permutation_sym (sort_by_key_perm (num_key k) l))).
  exact Hl.
Qed.

Lemma map_snd_keyed (k : string) (l : list Obj) : map snd (map (keyed k) l) = l.
Proof. rewrite map_map. cbn. apply map_id. Qed.

Lemma py_sorted_eq (k : string) (reverse : bool) (l : list Obj) :
  py_sorted (fun x => getitem x k) reverse l =
  (ks <- map_result (key_of k) l ;;
   s <- sort_keyed (if reverse then rev ks else ks) ;;
   Ok (map snd (if reverse then rev s else s))).
Proof. reflexivity. Qed.

Lemma py_sorted_num (k : string) (reverse : bool) (l : list Obj) :
  Forall (holds_number k) l ->
  py_sorted (fun x => getitem x k) reverse l
  = Ok (if reverse then rev (sort_by_key (num_key k) (rev l))
        else sort_by_key (num_key k) l).
Proof.
  intro Hl. rewrite py_sorted_eq.
  rewrite (map_result_keys k l Hl). cbn [rbind].
  destruct reverse.
  - rewrite <- map_rev.
    rewrite (sort_keyed_num k (rev l) (Forall_rev Hl)). cbn [rbind].
    now rewrite <- map_rev, map_snd_keyed.
  - rewrite (sort_keyed_num k l Hl). cbn [rbind].
    now rewrite map_snd_keyed.
Qed.

Lemma py_sorted_KeyError (k : string) (reverse : bool) (l : list Obj) :
  Exists (fun x => dict_get k x = None) l ->
  py_sorted (fun x => getitem x k) reverse l = Raise (KeyError k).
Proof.
  intro H. rewrite py_sorted_eq.
  now rewrite (map_result_KeyError k l H).
Qed.

Lemma sort_patients_eq (sort_by order : string) (w : World) :
  In sort_by valid_fields -> In order ["asc"; "desc"] ->
  sort_patients sort_by order w =
  match py_sorted (fun x => getitem x sort_by) (String.eqb order "desc")
          (dict_values (file w)) with
  | Ok sorted_data => (Ok (RetList sorted_data), loaded w)
  | Raise _ => (Raise (HTTPException 500), loaded w)
  end.
Proof.
  intros Hf Ho. unfold sort_patients.
  rewrite (proj2 (str_in_iff _ _) Hf), (proj2 (str_in_iff _ _) Ho).
  cbn [negb]. unfold mbind, load_data, ret, raise, loaded. cbn [file trace].
  destruct (String.eqb order "desc"); cbn [negb];
    destruct (py_sorted _ _ _); reflexivity.
Qed.

(** The records of the specification's example, sorted by height. *)
Example sort_by_height_example :
  map (num_key "height")
    match fst (sort_patients "height" "asc" world_six) with
    | Ok (RetList l) => l
    | _ => []
    end = [150; 160; 180] /\
  map (num_key "height")
    match fst (sort_patients "height" "desc" world_six) with
    | Ok (RetList l) => l
    | _ => []
    end = [180; 160; 150].
Proof. split; reflexivity. Qed.

(** Records of equal height keep their storage order, A before C, in both
    directions: descending is not ascending reversed. *)
Example sort_ties_keep_storage_order :
  names_of (fst (sort_patients "height" "asc" world_ties))
  = [Some "B"; Some "A"; Some "C"] /\
  names_of (fst (sort_patients "height" "desc" world_ties))
  = [Some "A"; Some "C"; Some "B"].
Proof. split; reflexivity. Qed.

(** Sorting by bmi reads the stored bmi: here the stored values are 10 and
    99 while the heights and weights give 50 and 20, and the order is the
    one of the stored values. *)
Example sort_by_bmi_reads_stored_value :
  fst (sort_patients "bmi" "asc" world_stale)
  = Ok (RetList (dict_values (file world_stale))) /\
  bmi (mkPateint "P1" "A" "Pune" 30 female 100 50) = Ok 50 /\
  bmi (mkPateint "P2" "B" "Pune" 30 female 100 20) = Ok 20.
Proof. repeat split. Qed.

(** The claim of C6 fails on a file whose records hold the six declared
    fields and no bmi: sorting by bmi answers 500. *)
Lemma sort_by_bmi_without_stored_bmi :
  sort_patients "bmi" "asc" world_six
  = (Raise (HTTPException 500), loaded world_six) /\
  http_status (fst (sort_patients "bmi" "asc" world_six)) = 500%Z.
Proof. split; reflexivity. Qed.

(** C6, amended: when every stored record holds a number under the chosen
    field, [sort_patients] with a field among height, weight, bmi and an
    order among asc, desc returns the stored records in a stable sort by the
    value stored under that field (bmi is read from the file, not computed):
    a permutation of the records in storage order, ascending for asc and
    descending for desc, records of equal value staying in storage order in
    both.  When a record lacks the field the answer is 500.  For a field or
    an order outside those sets the answer is 400, and the file is neither
    read nor written. *)
Theorem sort_patients_stable (sort_by order : string) (w : World) :
  (In sort_by valid_fields -> In order ["asc"; "desc"] ->
   Forall (holds_number sort_by) (dict_values (file w)) ->
   exists l : list Obj,
     sort_patients sort_by order w = (Ok (RetList l), loaded w) /\
     Permutation l (dict_values (file w)) /\
     (order = "asc" ->
      StronglySorted (fun a b => num_key sort_by a <= num_key sort_by b) l) /\
     (order = "desc" ->
      StronglySorted (fun a b => num_key sort_by b <= num_key sort_by a) l) /\
     (forall q : Q,
         filter (fun x => Qeq_bool (num_key sort_by x) q) l
         = filter (fun x => Qeq_bool (num_key sort_by x) q)
             (dict_values (file w)))) /\
  (In sort_by valid_fields -> In order ["asc"; "desc"] ->
   Exists (fun x => dict_get sort_by x = None) (dict_values (file w)) ->
   sort_patients sort_by order w = (Raise (HTTPException 500), loaded w)) /\
  (~ In sort_by valid_fields \/ ~ In order ["asc"; "desc"] ->
   sort_patients sort_by order w = (Raise (HTTPException 400), w)).
Proof.
  split; [|split].
  - intros Hf Ho Hall.
    rewrite (sort_patients_eq sort_by order w Hf Ho).
    rewrite (py_sorted_num sort_by _ _ Hall).
    destruct Ho as [<- | [<- | []]]; cbn [String.eqb Ascii.eqb Bool.eqb].
    + eexists. split; [reflexivity|].
      split; [apply sort_by_key_perm|].
      split; [intros _; apply sort_by_key_sorted|].
      split; [discriminate|].
      intro q. apply sort_by_key_stable.
    + eexists. split; [reflexivity|].
      split; [apply reverse_sort_perm|].
      split; [discriminate|].
      split; [intros _; apply reverse_sort_sorted|].
      intro q. apply reverse_sort_stable.
  - intros Hf Ho Hex.
    rewrite (sort_patients_eq sort_by order w Hf Ho).
    now rewrite (py_sorted_KeyError sort_by _ _ Hex).
  - intros [Hf | Ho]; unfold sort_patients.
    + destruct (str_in sort_by valid_fields) eqn:E; [|reflexivity].
      apply str_in_iff in E. contradiction.
    + destruct (str_in sort_by valid_fields); [|reflexivity].
      destruct (str_in order ["asc"; "desc"]) eqn:E; [|reflexivity].
      apply str_in_iff in E. contradiction.
Qed.

Lemma sort_patients_stable_witness :
  exists l : list Obj,
    sort_patients "height" "desc" world_six = (Ok (RetList l), loaded world_six) /\
    Permutation l (dict_values (file world_six)).
Proof.
  destruct (proj1 (sort_patients_stable "height" "desc" world_six))
    as (l & H1 & H2 & _).
  - cbn. tauto.
  - cbn. tauto.
  - repeat constructor; eexists; reflexivity.
  - exists l. split; [exact H1 | exact H2].
Defined.

(** ** Beyond the claims: create, read and delete *)

Lemma dict_set_absent {V} (k : string) (v : V) (d : dict V) :
  dict_get k d = None -> dict_set k v d = d ++ [(k, v)].
Proof.
  induction d as [|[k' v'] d IH]; cbn; [reflexivity|].
  destruct (String.eqb k k'); [discriminate|].
  intro H. now rewrite IH.
Qed.

Lemma dict_del_absent {V} (k : string) (d : dict V) :
  dict_get k d = None -> dict_del k d = d.
Proof.
  unfold dict_del. induction d as [|[k' v'] d IH]; cbn; [reflexivity|].
  destruct (String.eqb k k'); [discriminate|].
  intro H. cbn. now rewrite IH.
Qed.

Lemma dict_get_del_eq {V} (k : string) (d : dict V) :
  dict_get k (dict_del k d) = None.
Proof.
  unfold dict_del. induction d as [|[k' v'] d IH]; cbn; [reflexivity|].
  destruct (String.eqb k k') eqn:E; cbn; [exact IH|].
  now rewrite E.
Qed.

Lemma dict_get_del_neq {V} (k k' : string) (d : dict V) :
  k <> k' -> dict_get k' (dict_del k d) = dict_get k' d.
Proof.
  intro N. unfold dict_del. induction d as [|[k0 v0] d IH]; cbn; [reflexivity|].
  destruct (String.eqb_spec k k0) as [->|N0]; cbn.
  - destruct (String.eqb_spec k' k0); [congruence | exact IH].
  - now rewrite IH.
Qed.

Lemma dict_keys_set_present {V} (k : string) (v : V) (d : dict V) :
  dict_keys (dict_set k v d) =
  if dict_contains k d then dict_keys d else dict_keys d ++ [k].
Proof.
  unfold dict_contains, dict_keys.
  induction d as [|[k' v'] d IH]; cbn; [reflexivity|].
  destruct (String.eqb k k'); cbn; [reflexivity|].
  rewrite IH. now destruct (dict_get k d).
Qed.

Lemma dict_contains_false {V} (k : string) (d : dict V) :
  dict_contains k d = false <-> dict_get k d = None.
Proof. unfold dict_contains. destruct (dict_get k d); split; congruence. Qed.

Lemma validated_bounds (o : Obj) (p : Pateint) :
  Pateint_validate o = Ok p -> 0 < height p /\ 0 < weight p.
Proof.
  intro H. apply Pateint_validate_Ok_iff in H.
  destruct H as (_ & _ & _ & _ & _ & _ & _ & Gh & Gw).
  split; now apply Qlt_bool_iff.
Qed.

Lemma validated_id (pateint_id : string) (o : Obj) (p : Pateint) :
  Pateint_validate (dict_set "id" (JStr pateint_id) o) = Ok p ->
  id p = pateint_id.
Proof.
  intro H. apply Pateint_validate_Ok_iff in H. destruct H as (Hi & _).
  rewrite field_set_eq in Hi. cbn in Hi. congruence.
Qed.

Lemma delete_pateint_eq (pateint_id : string) (w : World) :
  delete_pateint pateint_id w =
  if dict_contains pateint_id (file w)
  then (Ok (JSONResponse 200 "Pateint deleted successfully"),
        saved (dict_del pateint_id (file w)) (loaded w))
  else (Raise (HTTPException 404), loaded w).
Proof.
  unfold delete_pateint, mbind, load_data, raise, ret, save_data, loaded, saved.
  cbn [file trace].
  destruct (dict_contains pateint_id (file w)); reflexivity.
Qed.

Lemma view_pateint_eq (pateint_id : string) (w : World) :
  view_pateint pateint_id w =
  match dict_get pateint_id (file w) with
  | Some o => (Ok (RetObj o), loaded w)
  | None => (Raise (HTTPException 404), loaded w)
  end.
Proof.
  unfold view_pateint, mbind, load_data, raise, ret, loaded. cbn [file trace].
  destruct (dict_get pateint_id (file w)); reflexivity.
Qed.

(** X1: a body the model accepts, under an id the file does not hold and
    with computed fields that evaluate (the dump of the record succeeds), is
    created with 201; reading that id afterwards returns the value that was
    written, and that value reads back as the record of the body. *)
Theorem create_then_view (body : Obj) (p : Pateint) (d : Obj) (w : World) :
  Pateint_validate body = Ok p ->
  dict_get (id p) (file w) = None ->
  Pateint_model_dump_exclude_id p = Ok d ->
  POST_create body w
  = (Ok (JSONResponse 201 "Pateint created successfully"),
     saved (dict_set (id p) d (file w)) (loaded w)) /\
  fst (view_pateint (id p) (snd (POST_create body w))) = Ok (RetObj d) /\
  Pateint_validate (dict_set "id" (JStr (id p)) d) = Ok p.
Proof.
  intros Hv Hnone Hd.
  destruct (validated_bounds body p Hv) as [Hh Hw].
  assert (E : POST_create body w
              = (Ok (JSONResponse 201 "Pateint created successfully"),
                 saved (dict_set (id p) d (file w)) (loaded w))).
  { unfold POST_create. rewrite Hv, create_pateint_eq.
    rewrite (proj2 (dict_contains_false _ _) Hnone). now rewrite Hd. }
  split; [exact E|]. split.
  - rewrite E, view_pateint_eq. cbn [snd saved file].
    now rewrite dict_get_set_eq.
  - now apply dump_validate_roundtrip.
Qed.

Lemma create_then_view_witness :
  fst (view_pateint "P001" (snd (POST_create P001_body world_six)))
  = Ok (RetObj P001_stored).
Proof.
  apply (create_then_view P001_body P001 P001_stored world_six); reflexivity.
Defined.

(** X2: POST /create never writes when it fails.  A body the model refuses
    is answered 422 and the file is not even read; a record whose id the
    file already holds is answered 400; and whenever the request fails the
    file holds what it held. *)
Theorem create_failure_cases (body : Obj) (w : World) :
  (is_Ok (Pateint_validate body) = false ->
   POST_create body w = (Raise RequestValidationError, w)) /\
  (forall p : Pateint,
      Pateint_validate body = Ok p ->
      dict_contains (id p) (file w) = true ->
      POST_create body w = (Raise (HTTPException 400), loaded w)) /\
  (is_Ok (fst (POST_create body w)) = false ->
   snd (POST_create body w) = w \/ snd (POST_create body w) = loaded w).
Proof.
  unfold POST_create.
  destruct (Pateint_validate body) as [p|e] eqn:Ev; cbn [is_Ok].
  - split; [discriminate|]. rewrite create_pateint_eq. split.
    + intros p' [= <-] Hc. now rewrite Hc.
    + destruct (dict_contains (id p) (file w)); [now right|].
      destruct (Pateint_model_dump_exclude_id p); [discriminate | now right].
  - split; [reflexivity|]. split; [discriminate | now left].
Qed.

Lemma create_failure_cases_witness :
  POST_create P001_body world_P001 = (Raise (HTTPException 400), loaded world_P001).
Proof.
  apply (proj1 (proj2 (create_failure_cases P001_body world_P001)) P001);
    reflexivity.
Defined.

(** X3: a successful create puts the new id last and touches nothing else:
    the ids of the file are the former ones followed by the new one, the
    values likewise, and every other id reads as before. *)
Theorem create_appends (p : Pateint) (w w' : World) (r : Returned) :
  create_pateint p w = (Ok r, w') ->
  exists d : Obj,
    Pateint_model_dump_exclude_id p = Ok d /\
    file w' = file w ++ [(id p, d)] /\
    dict_keys (file w') = dict_keys (file w) ++ [id p] /\
    dict_values (file w') = dict_values (file w) ++ [d] /\
    (forall k : string, k <> id p -> dict_get k (file w') = dict_get k (file w)).
Proof.
  intro H. rewrite create_pateint_eq in H.
  destruct (dict_contains (id p) (file w)) eqn:Ec; [discriminate H|].
  destruct (Pateint_model_dump_exclude_id p) as [d|e]; [|discriminate H].
  injection H as _ <-. exists d. cbn [saved file].
  apply dict_contains_false in Ec.
  split; [reflexivity|].
  rewrite (dict_set_absent _ _ _ Ec).
  split; [reflexivity|].
  unfold dict_keys, dict_values. rewrite !map_app. cbn.
  split; [reflexivity|]. split; [reflexivity|].
  intros k Hk. rewrite <- (dict_set_absent _ _ _ Ec).
  apply dict_get_set_neq. congruence.
Qed.

Lemma create_appends_witness :
  dict_keys (file (snd (create_pateint P001 world_six))) = ["P1"; "P2"; "P3"; "P001"].
Proof.
  destruct (create_appends P001 world_six (snd (create_pateint P001 world_six))
              (JSONResponse 201 "Pateint created successfully"))
    as (d & _ & _ & H & _).
  - reflexivity.
  - exact H.
Defined.

(** X4: DELETE answers 404 for an id the file does not hold and leaves the
    file alone; for an id it holds it answers 200, after which that id is
    gone (reading it gives 404) and every other id reads as before. *)
Theorem delete_pateint_cases (pateint_id : string) (w : World) :
  (dict_get pateint_id (file w) = None ->
   delete_pateint pateint_id w = (Raise (HTTPException 404), loaded w)) /\
  (forall o : Obj,
      dict_get pateint_id (file w) = Some o ->
      delete_pateint pateint_id w
      = (Ok (JSONResponse 200 "Pateint deleted successfully"),
         saved (dict_del pateint_id (file w)) (loaded w)) /\
      fst (view_pateint pateint_id (snd (delete_pateint pateint_id w)))
      = Raise (HTTPException 404) /\
      (forall k : string,
          k <> pateint_id ->
          dict_get k (file (snd (delete_pateint pateint_id w)))
          = dict_get k (file w))).
Proof.
  rewrite delete_pateint_eq. unfold dict_contains. split.
  - intros ->. reflexivity.
  - intros o ->. split; [reflexivity|]. cbn [snd saved file]. split.
    + rewrite view_pateint_eq. cbn [saved file].
      now rewrite dict_get_del_eq.
    + intros k Hk. apply dict_get_del_neq. congruence.
Qed.

Lemma delete_pateint_cases_witness :
  delete_pateint "P404" world_P001 = (Raise (HTTPException 404), loaded world_P001) /\
  fst (view_pateint "P001" (snd (delete_pateint "P001" world_P001)))
  = Raise (HTTPException 404).
Proof.
  split.
  - apply (proj1 (delete_pateint_cases "P404" world_P001)). reflexivity.
  - apply (proj2 (delete_pateint_cases "P001" world_P001) P001_stored). reflexivity.
Defined.

(** X5: creating a record under a new id and deleting that id leaves the
    file as it was before the two requests. *)
Theorem create_then_delete (p : Pateint) (w w' : World) (r : Returned) :
  create_pateint p w = (Ok r, w') ->
  fst (delete_pateint (id p) w')
  = Ok (JSONResponse 200 "Pateint deleted successfully") /\
  file (snd (delete_pateint (id p) w')) = file w.
Proof.
  intro H. rewrite create_pateint_eq in H.
  destruct (dict_contains (id p) (file w)) eqn:Ec; [discriminate H|].
  destruct (Pateint_model_dump_exclude_id p) as [d|e]; [|discriminate H].
  injection H as _ <-.
  apply dict_contains_false in Ec.
  assert (Hc : dict_contains (id p) (dict_set (id p) d (file w)) = true).
  { unfold dict_contains. now rewrite dict_get_set_eq. }
  rewrite delete_pateint_eq. cbn [saved file]. rewrite Hc.
  cbn [fst snd saved file].
  split; [reflexivity|].
  rewrite (dict_set_absent _ _ _ Ec).
  unfold dict_del. rewrite filter_app. cbn. rewrite String.eqb_refl. cbn.
  rewrite app_nil_r. now apply dict_del_absent.
Qed.

Lemma create_then_delete_witness :
  file (snd (delete_pateint "P001" (snd (create_pateint P001 world_six))))
  = file world_six.
Proof.
  apply (create_then_delete P001 world_six (snd (create_pateint P001 world_six))
           (JSONResponse 201 "Pateint created successfully")).
  reflexivity.
Defined.

(** ** Beyond the claims: the merge in general *)

Lemma merge_items_dump_opt {A} (e : Obj) (k : string) (inj : A -> JValue)
    (f : Opt A) :
  (forall a : A, inj a <> JNull) ->
  merge_items e (dump_opt k inj f) = merge_field k inj f e.
Proof.
  intro Hinj. destruct f as [|[a|]]; try reflexivity.
  cbn. specialize (Hinj a). destruct (inj a); congruence.
Qed.

Lemma merge_items_dump (e : Obj) (u : PateintUpdate) :
  merge_items e (PateintUpdate_model_dump_exclude_unset u) =
  merge_field "weight" JFloat (upd_weight u)
    (merge_field "height" JFloat (upd_height u)
       (merge_field "gender" (fun g => JStr (string_of_Gender g)) (upd_gender u)
          (merge_field "age" JInt (upd_age u)
             (merge_field "city" JStr (upd_city u)
                (merge_field "name" JStr (upd_name u) e))))).
Proof.
  unfold PateintUpdate_model_dump_exclude_unset.
  rewrite !merge_items_app.
  now rewrite !merge_items_dump_opt by discriminate.
Qed.

Lemma field_merge_field {A B} (k k' : string) (inj : A -> JValue) (f : Opt A)
    (e : Obj) (c : JValue -> option B) :
  field (merge_field k inj f e) k' c =
  if String.eqb k k'
  then match f with
       | Given (Some a) => c (inj a)
       | _ => field e k' c
       end
  else field e k' c.
Proof.
  destruct (String.eqb_spec k k') as [<-|N];
    destruct f as [|[a|]]; cbn [merge_field]; try reflexivity.
  - apply field_set_eq.
  - now apply field_set_neq.
Qed.



Lemma Gender_of_string_of_Gender (g : Gender) :
  Gender_of_string (string_of_Gender g) = Some g.
Proof. now destruct g. Qed.

Lemma MergePartial_patched_eq (existing : Obj) (u : PateintUpdate)
    (pateint_id : string) (p : Pateint) :
  Pateint_validate (dict_set "id" (JStr pateint_id) existing) = Ok p ->
  patch_in_bounds u ->
  MergePartial existing u pateint_id = Ok (patched u p).
Proof.
  intros Hp (_ & Bh & Bw).
  pose proof (validated_id _ _ _ Hp) as Hid.
  apply Pateint_validate_Ok_iff in Hp.
  destruct Hp as (_ & Hn & Hc & Ha & Hg & Hh & Hw & Gh & Gw).
  rewrite field_set_neq in Hn by discriminate.
  rewrite field_set_neq in Hc by discriminate.
  rewrite field_set_neq in Ha by discriminate.
  rewrite field_set_neq in Hg by discriminate.
  rewrite field_set_neq in Hh by discriminate.
  rewrite field_set_neq in Hw by discriminate.
  unfold MergePartial. rewrite merge_items_dump.
  apply Pateint_validate_Ok_iff.
  rewrite field_set_eq.
  repeat rewrite (field_set_neq _ "id") by discriminate.
  repeat rewrite field_merge_field.
  cbn [String.eqb Ascii.eqb Bool.eqb patched id name city age gender height weight].
  repeat split.
  - cbn. congruence.
  - destruct (upd_name u) as [|[x|]]; cbn; trivial.
  - destruct (upd_city u) as [|[x|]]; cbn; trivial.
  - destruct (upd_age u) as [|[x|]]; cbn; trivial.
  - destruct (upd_gender u) as [|[x|]]; cbn; trivial.
    apply Gender_of_string_of_Gender.
  - destruct (upd_height u) as [|[x|]]; cbn; trivial.
  - destruct (upd_weight u) as [|[x|]]; cbn; trivial.
  - destruct (upd_height u) as [|[x|]] eqn:E; cbn; trivial.
    apply Qlt_bool_iff. now apply Bh.
  - destruct (upd_weight u) as [|[x|]] eqn:E; cbn; trivial.
    apply Qlt_bool_iff. now apply Bw.
Qed.

Lemma patched_idem (u : PateintUpdate) (p : Pateint) :
  patched u (patched u p) = patched u p.
Proof.
  unfold patched. cbn.
  destruct (upd_name u) as [|[?|]], (upd_city u) as [|[?|]],
    (upd_age u) as [|[?|]], (upd_gender u) as [|[?|]],
    (upd_height u) as [|[?|]], (upd_weight u) as [|[?|]]; reflexivity.
Qed.


Lemma Forall_dict_set {V} (P : string * V -> Prop) (k : string) (v : V)
    (d : dict V) :
  Forall P d -> P (k, v) -> Forall P (dict_set k v d).
Proof.
  intros Hd Hv. induction Hd as [|[k' v'] d Hx Hd IH]; cbn.
  - now constructor.
  - destruct (String.eqb_spec k k') as [->|N]; constructor; assumption.
Qed.

Lemma Forall_dict_del {V} (P : string * V -> Prop) (k : string) (d : dict V) :
  Forall P d -> Forall P (dict_del k d).
Proof.
  intro Hd. unfold dict_del. apply Forall_forall. intros x Hx.
  apply filter_In in Hx. destruct Hx as [Hx _].
  now apply (proj1 (Forall_forall P d) Hd).
Qed.

(** X6: for a stored value that reads as the valid record [p], and a patch
    whose present height and weight are above zero, the merge returns [p]
    with exactly the present fields of the patch in place of its own; the
    fields that are unset or null, and the id, are those of [p]. *)
Theorem MergePartial_overwrites_present (existing : Obj) (u : PateintUpdate)
    (pateint_id : string) (p : Pateint) :
  Pateint_validate (dict_set "id" (JStr pateint_id) existing) = Ok p ->
  patch_in_bounds u ->
  MergePartial existing u pateint_id = Ok (patched u p) /\
  id (patched u p) = pateint_id /\
  (absent (upd_name u) -> name (patched u p) = name p) /\
  (absent (upd_city u) -> city (patched u p) = city p) /\
  (absent (upd_age u) -> age (patched u p) = age p) /\
  (absent (upd_gender u) -> gender (patched u p) = gender p) /\
  (absent (upd_height u) -> height (patched u p) = height p) /\
  (absent (upd_weight u) -> weight (patched u p) = weight p) /\
  (forall x, upd_name u = Given (Some x) -> name (patched u p) = x) /\
  (forall x, upd_city u = Given (Some x) -> city (patched u p) = x) /\
  (forall x, upd_age u = Given (Some x) -> age (patched u p) = x) /\
  (forall x, upd_gender u = Given (Some x) -> gender (patched u p) = x) /\
  (forall x, upd_height u = Given (Some x) -> height (patched u p) = x) /\
  (forall x, upd_weight u = Given (Some x) -> weight (patched u p) = x).
Proof.
  intros Hp Hb.
  split; [now apply MergePartial_patched_eq|].
  split; [cbn; now apply (validated_id _ existing)|].
  unfold absent. cbn.
  repeat split; (intros [-> | ->] || intros x ->); reflexivity.
Qed.

Lemma MergePartial_overwrites_present_witness :
  MergePartial P001_stored
    (mkPateintUpdate Unset (Given (Some "Pune")) (Given (Some 31%Z)) Unset
       (Given None) (Given (Some 72.5)))
    "P001"
  = Ok (mkPateint "P001" "Harsh" "Pune" 31 male 175.5 72.5).
Proof.
  apply (MergePartial_overwrites_present P001_stored
           (mkPateintUpdate Unset (Given (Some "Pune")) (Given (Some 31%Z)) Unset
              (Given None) (Given (Some 72.5)))
           "P001" P001).
  - reflexivity.
  - unfold patch_in_bounds. cbn. repeat split; intros x [= <-]; reflexivity.
Defined.

(** X7: a successful edit replaces the value of its id in place: the ids of
    the file and their order are unchanged, every other id reads as before,
    and the new value is the dump of the merged record, whose id is the one
    of the path. *)
Theorem update_in_place (pateint_id : string) (u : PateintUpdate)
    (w w' : World) (r : Returned) :
  update_pateint pateint_id u w = (Ok r, w') ->
  dict_keys (file w') = dict_keys (file w) /\
  (forall k : string, k <> pateint_id -> dict_get k (file w') = dict_get k (file w)) /\
  exists (existing : Obj) (p : Pateint) (d : Obj),
    dict_get pateint_id (file w) = Some existing /\
    MergePartial existing u pateint_id = Ok p /\
    id p = pateint_id /\
    Pateint_model_dump_exclude_id p = Ok d /\
    dict_get pateint_id (file w') = Some d.
Proof.
  intro H. rewrite update_pateint_eq in H.
  destruct (dict_get pateint_id (file w)) as [existing|] eqn:Eg; [|discriminate H].
  destruct (MergePartial existing u pateint_id) as [p|e] eqn:Em; [|discriminate H].
  destruct (Pateint_model_dump_exclude_id p) as [d|e] eqn:Ed; [|discriminate H].
  injection H as _ <-. cbn [saved file].
  split; [|split].
  - rewrite dict_keys_set_present. unfold dict_contains. now rewrite Eg.
  - intros k Hk. apply dict_get_set_neq. congruence.
  - exists existing, p, d. repeat split; trivial.
    + now apply (validated_id pateint_id
                   (merge_items existing (PateintUpdate_model_dump_exclude_unset u))).
    + apply dict_get_set_eq.
Qed.

Lemma update_in_place_witness :
  dict_keys (file (snd (update_pateint "P001"
                          (mkPateintUpdate Unset (Given (Some "Pune")) Unset Unset Unset Unset)
                          world_P001)))
  = ["P001"].
Proof.
  apply (update_in_place "P001"
           (mkPateintUpdate Unset (Given (Some "Pune")) Unset Unset Unset Unset)
           world_P001
           (snd (update_pateint "P001"
                   (mkPateintUpdate Unset (Given (Some "Pune")) Unset Unset Unset Unset)
                   world_P001))
           (JSONResponse 200 "Pateint updated successfully")).
  reflexivity.
Defined.

(** ** Beyond the claims: the file the service writes *)

Lemma written_for_dump (p : Pateint) (o d : Obj) :
  Pateint_validate o = Ok p ->
  Pateint_model_dump_exclude_id p = Ok d ->
  written_for (id p) d.
Proof.
  intros Hv Hd. exists p. split; [|exact Hd].
  destruct (validated_bounds o p Hv) as [Hh Hw].
  now apply dump_validate_roundtrip.
Qed.

Lemma MergePartial_fixes_patch (existing : Obj) (u : PateintUpdate)
    (pateint_id : string) (p : Pateint) :
  MergePartial existing u pateint_id = Ok p -> patched u p = p.
Proof.
  unfold MergePartial. rewrite merge_items_dump. intro H.
  apply Pateint_validate_Ok_iff in H.
  destruct H as (_ & Hn & Hc & Ha & Hg & Hh & Hw & _).
  rewrite field_set_neq in Hn by discriminate.
  rewrite field_set_neq in Hc by discriminate.
  rewrite field_set_neq in Ha by discriminate.
  rewrite field_set_neq in Hg by discriminate.
  rewrite field_set_neq in Hh by discriminate.
  rewrite field_set_neq in Hw by discriminate.
  repeat rewrite field_merge_field in Hn.
  repeat rewrite field_merge_field in Hc.
  repeat rewrite field_merge_field in Ha.
  repeat rewrite field_merge_field in Hg.
  repeat rewrite field_merge_field in Hh.
  repeat rewrite field_merge_field in Hw.
  cbn [String.eqb Ascii.eqb Bool.eqb] in Hn, Hc, Ha, Hg, Hh, Hw.
  destruct p as [i n c a g h w]. unfold patched. cbn in *. f_equal.
  - destruct (upd_name u) as [|[x|]]; cbn in *; congruence.
  - destruct (upd_city u) as [|[x|]]; cbn in *; congruence.
  - destruct (upd_age u) as [|[x|]]; cbn in *; congruence.
  - destruct (upd_gender u) as [|[x|]]; cbn in *; trivial.
    rewrite Gender_of_string_of_Gender in Hg. congruence.
  - destruct (upd_height u) as [|[x|]]; cbn in *; congruence.
  - destruct (upd_weight u) as [|[x|]]; cbn in *; congruence.
Qed.

(** X8: an edit is idempotent.  When an edit with a patch within the bounds
    of the update model has succeeded, sending the same edit again succeeds
    and leaves the file as the first one left it. *)
Theorem update_idempotent (pateint_id : string) (u : PateintUpdate)
    (w w1 : World) (r : Returned) :
  patch_in_bounds u ->
  update_pateint pateint_id u w = (Ok r, w1) ->
  fst (update_pateint pateint_id u w1)
  = Ok (JSONResponse 200 "Pateint updated successfully") /\
  file (snd (update_pateint pateint_id u w1)) = file w1.
Proof.
  intros Hb H. rewrite update_pateint_eq in H.
  destruct (dict_get pateint_id (file w)) as [existing|]; [|discriminate H].
  destruct (MergePartial existing u pateint_id) as [p|e] eqn:Em; [|discriminate H].
  destruct (Pateint_model_dump_exclude_id p) as [d|e] eqn:Ed; [|discriminate H].
  injection H as _ <-.
  assert (Hg1 : dict_get pateint_id
                  (file (saved (dict_set pateint_id d (file w)) (loaded w)))
                = Some d) by apply dict_get_set_eq.
  assert (Hp1 : Pateint_validate (dict_set "id" (JStr pateint_id) d) = Ok p).
  { destruct (validated_bounds _ _ Em) as [Hh Hwt].
    pose proof (dump_validate_roundtrip _ _ Hh Hwt Ed) as Hq.
    now rewrite (validated_id _ _ _ Em) in Hq. }
  pose proof (MergePartial_patched_eq d u pateint_id p Hp1 Hb) as Em1.
  rewrite (MergePartial_fixes_patch _ _ _ _ Em) in Em1.
  rewrite update_pateint_eq, Hg1, Em1, Ed. cbn [fst snd saved file].
  split; [reflexivity|].
  apply dict_set_same. apply dict_get_set_eq.
Qed.

Lemma update_idempotent_witness :
  file (snd (update_pateint "P001"
               (mkPateintUpdate Unset Unset Unset Unset Unset (Given (Some 90)))
               (snd (update_pateint "P001"
                       (mkPateintUpdate Unset Unset Unset Unset Unset (Given (Some 90)))
                       world_P001))))
  = file (snd (update_pateint "P001"
                 (mkPateintUpdate Unset Unset Unset Unset Unset (Given (Some 90)))
                 world_P001)).
Proof.
  apply (update_idempotent "P001"
           (mkPateintUpdate Unset Unset Unset Unset Unset (Given (Some 90)))
           world_P001
           (snd (update_pateint "P001"
                   (mkPateintUpdate Unset Unset Unset Unset Unset (Given (Some 90)))
                   world_P001))
           (JSONResponse 200 "Pateint updated successfully")).
  - unfold patch_in_bounds. cbn. repeat split; intros x [= <-]; reflexivity.
  - reflexivity.
Defined.

(** X9: the three writing requests keep the file one the service writes:
    if every stored value is the dump of a record the model accepts under
    its id, the same holds after POST /create, PUT /edit and DELETE, whatever
    the request and whether it succeeds or fails. *)
Theorem service_written_preserved (w : World) (pateint_id : string) (body : Obj) :
  service_written (file w) ->
  service_written (file (snd (POST_create body w))) /\
  service_written (file (snd (PUT_edit pateint_id body w))) /\
  service_written (file (snd (delete_pateint pateint_id w))).
Proof.
  intro Hw. split; [|split].
  - unfold POST_create.
    destruct (Pateint_validate body) as [p|e] eqn:Ev; [|exact Hw].
    rewrite create_pateint_eq.
    destruct (dict_contains (id p) (file w)); [exact Hw|].
    destruct (Pateint_model_dump_exclude_id p) as [d|e] eqn:Ed; [|exact Hw].
    cbn [snd saved file]. apply Forall_dict_set; [exact Hw|].
    apply (written_for_dump p body d Ev Ed).
  - unfold PUT_edit.
    destruct (PateintUpdate_validate body) as [u|e]; [|exact Hw].
    rewrite update_pateint_eq.
    destruct (dict_get pateint_id (file w)) as [existing|]; [|exact Hw].
    destruct (MergePartial existing u pateint_id) as [p|e] eqn:Em; [|exact Hw].
    destruct (Pateint_model_dump_exclude_id p) as [d|e] eqn:Ed; [|exact Hw].
    cbn [snd saved file]. apply Forall_dict_set; [exact Hw|].
    pose proof (written_for_dump _ _ _ Em Ed) as H.
    now rewrite (validated_id _ _ _ Em) in H.
  - rewrite delete_pateint_eq.
    destruct (dict_contains pateint_id (file w)); [|exact Hw].
    cbn [snd saved file]. now apply Forall_dict_del.
Qed.

Lemma service_written_preserved_witness :
  service_written (file (snd (POST_create P001_body empty_world))).
Proof.
  apply (service_written_preserved empty_world "P001" P001_body).
  constructor.
Defined.

Lemma written_for_holds_number (pateint_id sort_by : string) (o : Obj) :
  written_for pateint_id o -> In sort_by valid_fields ->
  holds_number sort_by o.
Proof.
  intros (p & _ & Hd) Hin.
  apply model_dump_Ok_inv in Hd. destruct Hd as (b & v & _ & _ & ->).
  destruct Hin as [<- | [<- | [<- | []]]]; eexists; reflexivity.
Qed.

(** X10: on a file the service wrote, GET /sort with a field among height,
    weight, bmi and an order among asc, desc always answers with a list, a
    permutation of the stored values (never 500); and the bmi each value
    stores, the one the sort reads, is the bmi of the record the value
    stands for. *)
Theorem sort_patients_on_service_written (sort_by order : string) (w : World) :
  service_written (file w) ->
  In sort_by valid_fields -> In order ["asc"; "desc"] ->
  (exists l : list Obj,
      sort_patients sort_by order w = (Ok (RetList l), loaded w) /\
      Permutation l (dict_values (file w))) /\
  Forall (fun kv =>
            exists (p : Pateint) (b : Q),
              Pateint_validate (dict_set "id" (JStr (fst kv)) (snd kv)) = Ok p /\
              bmi p = Ok b /\ num_key "bmi" (snd kv) = b)
         (file w).
Proof.
  intros Hw Hf Ho. split.
  - assert (Hall : Forall (holds_number sort_by) (dict_values (file w))).
    { unfold dict_values. apply Forall_map.
      apply (Forall_impl _ (P := fun kv => written_for (fst kv) (snd kv))); [|exact Hw].
      intros kv Hkv. now apply (written_for_holds_number (fst kv)). }
    rewrite (sort_patients_eq sort_by order w Hf Ho).
    rewrite (py_sorted_num sort_by _ _ Hall).
    eexists. split; [reflexivity|].
    destruct (String.eqb order "desc");
      [apply reverse_sort_perm | apply sort_by_key_perm].
  - apply (Forall_impl _ (P := fun kv => written_for (fst kv) (snd kv))); [|exact Hw].
    intros [k o] (p & Hp & Hd). cbn [fst snd] in *.
    apply model_dump_Ok_inv in Hd. destruct Hd as (b & v & Hb & _ & E).
    exists p, b. split; [exact Hp|]. split; [exact Hb|].
    subst o. reflexivity.
Qed.

Lemma sort_patients_on_service_written_witness :
  exists l : list Obj,
    sort_patients "bmi" "desc" world_P001 = (Ok (RetList l), loaded world_P001) /\
    Permutation l (dict_values (file world_P001)).
Proof.
  apply (sort_patients_on_service_written "bmi" "desc" world_P001).
  - repeat constructor. exists P001. split; reflexivity.
  - cbn. tauto.
  - cbn. tauto.
Defined.



(** ** Beyond the claims: computed fields, reads, and the two orders *)

Lemma round_half_even_nonneg (x : Q) : 0 <= x -> (0 <= round_half_even x)%Z.
Proof.
  intro Hx. pose proof (Qfloor_resp_le _ _ Hx) as Hf.
  change (Qfloor 0) with 0%Z in Hf.
  unfold round_half_even.
  destruct (Qcompare (x - inject_Z (Qfloor x)) (1 # 2)); [|lia|lia].
  destruct (Z.even (Qfloor x)); lia.
Qed.

Lemma binary_round_aux_not_negative (m e : Z) (l : location) :
  not_negative (binary_round_aux 53 1024 false m e l) = true.
Proof.
  unfold binary_round_aux.
  destruct (shr_fexp 53 1024 m e l) as [mrs' e'].
  destruct (shr_fexp 53 1024 _ e' loc_Exact) as [mrs'' e''].
  destruct (shr_m mrs''); [reflexivity | | reflexivity].
  destruct (Z.leb e'' (1024 - 53)); reflexivity.
Qed.

Lemma double_mul_self_not_negative (x : double) :
  not_negative (double_mul x x) = true.
Proof.
  destruct x as [s|s| |s m e]; unfold double_mul; cbn [SFmul].
  - reflexivity.
  - now destruct s.
  - reflexivity.
  - rewrite xorb_nilpotent. apply binary_round_aux_not_negative.
Qed.

Lemma float_pow2_cases (x : double) :
  float_pow2 x = Ok (double_mul x x) \/ float_pow2 x = Raise OverflowError.
Proof.
  unfold float_pow2.
  destruct x; destruct (double_mul _ _); (now left) || (now right).
Qed.

Lemma positive_double_cases (w : double) :
  SFltb double_zero w = true ->
  w = S754_infinity false \/
  exists (m : positive) (e : Z), w = S754_finite false m e.
Proof.
  destruct w as [s|s| |s m e]; cbn; try discriminate.
  - destruct s; [discriminate | now left].
  - destruct s; [discriminate | right; now exists m, e].
Qed.

Lemma double_div_not_negative (w sq : double) :
  SFltb double_zero w = true ->
  not_negative sq = true ->
  SFeqb sq double_zero = false ->
  not_negative (double_div w sq) = true.
Proof.
  intros Hw Hsq Hnz.
  destruct (positive_double_cases w Hw) as [-> | (m & e & ->)];
    destruct sq as [s|s| |s ms es]; cbn in Hsq, Hnz; try discriminate;
    unfold double_div; cbn [SFdiv]; try reflexivity;
    try (destruct s; [discriminate Hsq | reflexivity]).
  destruct s; [discriminate Hsq|].
  destruct (SFdiv_core_binary 53 1024 (Z.pos m) e (Z.pos ms) es) as [[mz ez] lz].
  apply binary_round_aux_not_negative.
Qed.

Lemma double_of_Q_not_negative (q : Q) :
  (0 <= Qnum q)%Z -> not_negative (double_of_Q q) = true.
Proof.
  unfold double_of_Q. destruct (Qnum q) as [|n|n]; intro H.
  - reflexivity.
  - unfold double_div. cbn [SFdiv].
    destruct (SFdiv_core_binary 53 1024 (Z.pos n) 0 (Z.pos (Qden q)) 0)
      as [[mz ez] lz].
    apply binary_round_aux_not_negative.
  - lia.
Qed.

Lemma Q_of_double_nonneg (m : positive) (e : Z) :
  0 <= Q_of_double (S754_finite false m e).
Proof.
  unfold Q_of_double.
  assert (H2 : 0 <= 2 ^ e) by (apply Qpower_0_le; discriminate).
  assert (Hm : 0 <= inject_Z (Z.pos m)) by (unfold Qle; cbn; lia).
  rewrite Qmult_1_l. now apply Qmult_le_0_compat.
Qed.

Lemma float_round2_not_negative (q : double) :
  not_negative q = true -> not_negative (float_round2 q) = true.
Proof.
  destruct q as [s|s| |s m e]; cbn [float_round2]; trivial.
  cbn [not_negative]. destruct s; [discriminate|]. intros _.
  destruct (Z.eqb_spec (round_half_even (Q_of_double (S754_finite false m e) * 100)) 0)
    as [E|N]; [reflexivity|].
  apply double_of_Q_not_negative.
  assert (Hk : (0 <= round_half_even (Q_of_double (S754_finite false m e) * 100))%Z).
  { apply round_half_even_nonneg.
    pose proof (Q_of_double_nonneg m e). lra. }
  change (Qnum (inject_Z (round_half_even (Q_of_double (S754_finite false m e) * 100)) / 100))
    with (round_half_even (Q_of_double (S754_finite false m e) * 100) * 1)%Z.
  lia.
Qed.

Lemma not_negative_not_below_zero (x : double) :
  not_negative x = true -> SFltb x double_zero = false.
Proof.
  destruct x as [s|s| |s m e]; cbn; trivial; destruct s; trivial; discriminate.
Qed.

Lemma verdict_double_in_verdicts (b : double) : In (verdict_double b) verdicts.
Proof.
  unfold verdict_double, verdicts.
  destruct (SFltb b _); [cbn; tauto|].
  destruct (SFleb _ b && SFltb b _); [cbn; tauto|].
  destruct (SFleb _ b && SFltb b _); cbn; tauto.
Qed.

(** X12: on doubles, for a weight above zero and any height, the bmi of
    line 22 has three outcomes: ZeroDivisionError (the square of height/100
    is 0.0), OverflowError (the square overflows), or a value; a value is
    never below zero, and its verdict is one of "Underweight",
    "Normal weight", "Overweight", "Obesity". *)
Theorem bmi_double_outcomes (h w : double) :
  SFltb double_zero w = true ->
  (forall e : exn,
      bmi_double h w = Raise e -> e = ZeroDivisionError \/ e = OverflowError) /\
  (forall b : double,
      bmi_double h w = Ok b ->
      SFltb b double_zero = false /\ In (verdict_double b) verdicts).
Proof.
  intro Hw. unfold bmi_double. rewrite float_truediv_100. cbn [rbind].
  destruct (float_pow2_cases (double_div h (double_of_Q 100))) as [-> | ->];
    cbn [rbind].
  - unfold float_truediv.
    destruct (SFeqb (double_mul _ _) double_zero) eqn:Ez; cbn [rbind].
    + split; [intros e [= <-]; now left | discriminate].
    + split; [discriminate|]. intros b [= <-]. split.
      * apply not_negative_not_below_zero, float_round2_not_negative.
        apply double_div_not_negative; trivial.
        apply double_mul_self_not_negative.
      * apply verdict_double_in_verdicts.
  - split; [intros e [= <-]; now right | discriminate].
Qed.

Lemma bmi_double_outcomes_witness :
  SFltb (double_of_Q 19.37) double_zero = false /\
  In (verdict_double (double_of_Q 19.37)) verdicts.
Proof.
  apply (proj2 (bmi_double_outcomes (double_of_Q 160) (double_of_Q 49.6)
                  ltac:(vm_compute; reflexivity))).
  vm_compute. reflexivity.
Defined.

(** X13: the three reading requests never write: after GET /view,
    GET /pateints/{id} or GET /sort, whatever they answer, the file holds
    what it held, and at most [load_data] has run.  GET /pateints/{id}
    answers 404 exactly for an id the file does not hold. *)
Theorem reads_never_write (pateint_id sort_by order : string) (w : World) :
  snd (view w) = loaded w /\
  snd (view_pateint pateint_id w) = loaded w /\
  (snd (sort_patients sort_by order w) = w \/
   snd (sort_patients sort_by order w) = loaded w) /\
  file (snd (sort_patients sort_by order w)) = file w /\
  (fst (view_pateint pateint_id w) = Raise (HTTPException 404) <->
   dict_get pateint_id (file w) = None).
Proof.
  split; [reflexivity|].
  rewrite view_pateint_eq.
  split; [now destruct (dict_get pateint_id (file w))|].
  assert (Hs : snd (sort_patients sort_by order w) = w \/
               snd (sort_patients sort_by order w) = loaded w).
  { unfold sort_patients.
    destruct (str_in sort_by valid_fields); cbn [negb]; [|now left].
    destruct (str_in order ["asc"; "desc"]); cbn [negb]; [|now left].
    unfold mbind, load_data, ret, raise, loaded. cbn [file trace].
    destruct (py_sorted _ _ _); now right. }
  split; [exact Hs|]. split.
  - destruct Hs as [-> | ->]; reflexivity.
  - destruct (dict_get pateint_id (file w)); cbn [fst]; split; congruence.
Qed.

Lemma tie_free_strict {A} (key : A -> Q) (l : list A) :
  (forall q : Q, (List.length (filter (fun y => Qeq_bool (key y) q) l) <= 1)%nat) ->
  StronglySorted (fun a b => key a <= key b) l ->
  StronglySorted (fun a b => key a < key b) l.
Proof.
  intros Hfree Hs. induction Hs as [|a t Hs IH Ha]; [constructor|].
  constructor.
  - apply IH. intro q. specialize (Hfree q). cbn [filter] in Hfree.
    destruct (Qeq_bool (key a) q); cbn [List.length] in Hfree; lia.
  - apply Forall_forall. intros y Hy.
    pose proof (proj1 (Forall_forall _ _) Ha y Hy) as Hle. cbv beta in Hle.
    destruct (Qeq_dec (key a) (key y)) as [E|N]; [|lra].
    exfalso. specialize (Hfree (key a)). cbn [filter] in Hfree.
    rewrite Qeq_bool_refl in Hfree. cbn [List.length] in Hfree.
    assert (Hin : In y (filter (fun y0 => Qeq_bool (key y0) (key a)) t)).
    { apply filter_In. split; [exact Hy|]. apply Qeq_eq_bool. now symmetry. }
    destruct (filter (fun y0 => Qeq_bool (key y0) (key a)) t);
      [inversion Hin | cbn [List.length] in Hfree; lia].
Qed.

Lemma strict_sorted_unique {A} (key : A -> Q) (s1 s2 : list A) :
  StronglySorted (fun a b => key a < key b) s1 ->
  StronglySorted (fun a b => key a < key b) s2 ->
  Permutation s1 s2 -> s1 = s2.
Proof.
  intro H1. revert s2.
  induction H1 as [|a t1 Hs1 IH Ha]; intros s2 H2 Hp.
  - now apply Permutation_nil in Hp.
  - destruct H2 as [|b t2 Hs2 Hb].
    { apply Permutation_sym, Permutation_nil in Hp. discriminate Hp. }
    assert (Eab : a = b).
    { assert (Hina : In a (b :: t2))
        by (apply (Permutation_in _ Hp); now left).
      assert (Hinb : In b (a :: t1))
        by (apply (Permutation_in _ (Permutation_sym Hp)); now left).
      destruct Hina as [-> | Hina]; [reflexivity|].
      destruct Hinb as [-> | Hinb]; [reflexivity|].
      pose proof (proj1 (Forall_forall _ _) Hb a Hina) as L1.
      pose proof (proj1 (Forall_forall _ _) Ha b Hinb) as L2.
      cbv beta in L1, L2. lra. }
    subst b. f_equal. apply IH; [exact Hs2|].
    now apply Permutation_cons_inv in Hp.
Qed.

Lemma sort_by_key_rev_tie_free {A} (key : A -> Q) (l : list A) :
  (forall q : Q, (List.length (filter (fun y => Qeq_bool (key y) q) l) <= 1)%nat) ->
  sort_by_key key (rev l) = sort_by_key key l.
Proof.
  intro Hfree. apply (strict_sorted_unique key).
  - apply tie_free_strict; [|apply sort_by_key_sorted].
    intro q. rewrite sort_by_key_stable, filter_rev, length_rev. apply Hfree.
  - apply tie_free_strict; [|apply sort_by_key_sorted].
    intro q. rewrite sort_by_key_stable. apply Hfree.
  - rewrite !sort_by_key_perm. symmetry. apply Permutation_rev.
Qed.

(** X14: when every stored record holds a number under the chosen field and
    no two records hold equal numbers there, the answer for desc is the
    answer for asc reversed.  (With equal numbers it is not: they keep the
    storage order in both.) *)
Theorem sort_desc_reverses_asc (sort_by : string) (w : World) :
  In sort_by valid_fields ->
  Forall (holds_number sort_by) (dict_values (file w)) ->
  (forall q : Q,
      (List.length (filter (fun x => Qeq_bool (num_key sort_by x) q)
                 (dict_values (file w))) <= 1)%nat) ->
  exists l : list Obj,
    sort_patients sort_by "asc" w = (Ok (RetList l), loaded w) /\
    sort_patients sort_by "desc" w = (Ok (RetList (rev l)), loaded w).
Proof.
  intros Hf Hall Hfree.
  exists (sort_by_key (num_key sort_by) (dict_values (file w))). split.
  - rewrite (sort_patients_eq sort_by "asc" w Hf) by (cbn; tauto).
    now rewrite (py_sorted_num sort_by _ _ Hall).
  - rewrite (sort_patients_eq sort_by "desc" w Hf) by (cbn; tauto).
    rewrite (py_sorted_num sort_by _ _ Hall). cbn [String.eqb Ascii.eqb Bool.eqb].
    now rewrite (sort_by_key_rev_tie_free _ _ Hfree).
Qed.

Lemma sort_desc_reverses_asc_witness :
  exists l : list Obj,
    sort_patients "height" "asc" world_six = (Ok (RetList l), loaded world_six) /\
    sort_patients "height" "desc" world_six = (Ok (RetList (rev l)), loaded world_six).
Proof.
  apply (sort_desc_reverses_asc "height" world_six).
  - cbn. tauto.
  - repeat constructor; eexists; reflexivity.
  - intro q. cbn [world_six file dict_values map snd filter].
    change (num_key "height" (six_fields "A" 150 50)) with 150.
    change (num_key "height" (six_fields "B" 180 80)) with 180.
    change (num_key "height" (six_fields "C" 160 60)) with 160.
    destruct (Qeq_bool 150 q) eqn:E1; destruct (Qeq_bool 180 q) eqn:E2;
      destruct (Qeq_bool 160 q) eqn:E3; cbn [List.length];
      try (apply Qeq_bool_eq in E1); try (apply Qeq_bool_eq in E2);
      try (apply Qeq_bool_eq in E3); try lia; exfalso; lra.
Defined.
